(** * RolePlayGPT: the MCP search-augmentation pipeline ([mcp_search.py])

    A shallow embedding of [MCPSearchEngine] and [MCPChatManager] and the
    properties of the pipeline: decision, cache lookup, multi-strategy
    search, summarisation, context injection and the final generation call.

    - Python [str] is a sequence of Unicode code points ([pystr]), so that
      [len] and slicing count characters, as they do in Python.
    - Values of unknown shape (the decoded decision reply, the entries of the
      [character] dict) are [pyval]s.  JSON numbers with a fraction or an
      exponent are outside [pyval].
    - The external collaborators (chat-completion client, search backend,
      HTTP fetch and HTML extraction, [json.loads], [repr]) are the fields of
      an [env]; a call's answer may depend on every call made before it.
    - A method is a function from the state to an outcome (a value or a
      raised exception) and the new state; the state holds the chronological
      list of external calls and, for the manager, [search_cache].
    - [print] has no effect on any value and is left out; where the printed
      expression can itself raise, its evaluation is kept. *)

From Stdlib Require Import ZArith NArith List String Ascii Floats Lia.
From stdpp Require Import gmap.
Import ListNotations.

Set Warnings "-register-all,-inexact-float".

#[local] Open Scope Z_scope.
#[local] Open Scope list_scope.

(** ** Python strings *)

Module PyStr.

Definition pystr : Type := list N.

(** Literals are written as UTF-8 text and decoded to code points. *)
Fixpoint utf8_decode (bs : list N) : pystr :=
  match bs with
  | [] => []
  | b0 :: r0 =>
    if (b0 <? 128)%N then b0 :: utf8_decode r0 else
    match r0 with
    | [] => []
    | b1 :: r1 =>
      if (b0 <? 224)%N then ((b0 - 192) * 64 + (b1 - 128))%N :: utf8_decode r1 else
      match r1 with
      | [] => []
      | b2 :: r2 =>
        if (b0 <? 240)%N
        then ((b0 - 224) * 4096 + (b1 - 128) * 64 + (b2 - 128))%N :: utf8_decode r2
        else
        match r2 with
        | [] => []
        | b3 :: r3 =>
          ((b0 - 240) * 262144 + (b1 - 128) * 4096 + (b2 - 128) * 64 + (b3 - 128))%N
            :: utf8_decode r3
        end
      end
    end
  end.

Definition u8 (s : string) : pystr :=
  utf8_decode (map N_of_ascii (list_ascii_of_string s)).

Definition LF : N := 10%N.
Definition DQUOTE : pystr := [34%N].
Definition NL : pystr := [LF].

Definition py_len (s : pystr) : Z := Z.of_nat (length s).

(** [s[:n]]: a negative bound counts from the end. *)
Definition py_slice_to {A : Type} (l : list A) (n : Z) : list A :=
  if n <? 0
  then firstn (Z.to_nat (Z.max 0 (Z.of_nat (length l) + n))) l
  else firstn (Z.to_nat n) l.

(** [sep.join(parts)] *)
Fixpoint py_join (sep : pystr) (parts : list pystr) : pystr :=
  match parts with
  | [] => []
  | [p] => p
  | p :: rest => p ++ sep ++ py_join sep rest
  end.

(** [s * n] for a one-character string *)
Definition py_repeat (c : N) (n : nat) : pystr := repeat c n.

(** [s.split('\n')] *)
Fixpoint py_split (sep : N) (s : pystr) : list pystr :=
  match s with
  | [] => [[]]
  | c :: r =>
    if (c =? sep)%N then [] :: py_split sep r
    else match py_split sep r with
         | [] => [[c]]
         | h :: t => (c :: h) :: t
         end
  end.

(** The characters [str.strip()] removes: those with [str.isspace()]. *)
Definition py_isspace (c : N) : bool :=
  ((9 <=? c) && (c <=? 13) || (28 <=? c) && (c <=? 32)
   || (c =? 133) || (c =? 160) || (c =? 5760)
   || (8192 <=? c) && (c <=? 8202)
   || (c =? 8232) || (c =? 8233) || (c =? 8239) || (c =? 8287)
   || (c =? 12288))%N.

Fixpoint py_lstrip (s : pystr) : pystr :=
  match s with
  | [] => []
  | c :: r => if py_isspace c then py_lstrip r else s
  end.

Definition py_strip (s : pystr) : pystr := rev (py_lstrip (rev (py_lstrip s))).

(** Truth value of a string or a list: non-empty. *)
Definition nonempty {A : Type} (l : list A) : bool :=
  match l with [] => false | _ :: _ => true end.

(** [str(n)] for an [int] *)
Fixpoint digits_of_uint (d : Decimal.uint) : pystr :=
  match d with
  | Decimal.Nil => []
  | Decimal.D0 r => 48%N :: digits_of_uint r
  | Decimal.D1 r => 49%N :: digits_of_uint r
  | Decimal.D2 r => 50%N :: digits_of_uint r
  | Decimal.D3 r => 51%N :: digits_of_uint r
  | Decimal.D4 r => 52%N :: digits_of_uint r
  | Decimal.D5 r => 53%N :: digits_of_uint r
  | Decimal.D6 r => 54%N :: digits_of_uint r
  | Decimal.D7 r => 55%N :: digits_of_uint r
  | Decimal.D8 r => 56%N :: digits_of_uint r
  | Decimal.D9 r => 57%N :: digits_of_uint r
  end.

Definition str_of_int (z : Z) : pystr :=
  match z with
  | Z0 => [48%N]
  | Zpos p => digits_of_uint (Pos.to_uint p)
  | Zneg p => 45%N :: digits_of_uint (Pos.to_uint p)
  end.

End PyStr.
Export PyStr.

Arguments u8 _%_string.


(** ** Python values, exceptions and outcomes *)

Module PyVal.

(** What [json.loads] can return and what a dict of unknown shape holds. *)
Inductive pyval : Type :=
| PNone
| PBool (b : bool)
| PInt (z : Z)
| PStr (s : pystr)
| PList (items : list pyval)
| PDict (items : list (pystr * pyval)).

Inductive exn_class : Type :=
| KeyError | TypeError | IndexError | AttributeError | OverflowError
| ExternalError.

(** An exception: its class and [str(e)].  All are [Exception]s. *)
Record exn : Type := Exn { exn_type : exn_class; exn_str : pystr }.

Inductive outcome (A : Type) : Type :=
| Returns (a : A)
| Raises (e : exn).
Arguments Returns {A} a.
Arguments Raises {A} e.

Fixpoint str_eqb (a b : pystr) : bool :=
  match a, b with
  | [], [] => true
  | x :: a', y :: b' => (x =? y)%N && str_eqb a' b'
  | _, _ => false
  end.

(** [bool(v)] *)
Definition py_truthy (v : pyval) : bool :=
  match v with
  | PNone => false
  | PBool b => b
  | PInt z => negb (z =? 0)
  | PStr s => nonempty s
  | PList l => nonempty l
  | PDict d => nonempty d
  end.

Fixpoint dict_lookup {V : Type} (k : pystr) (d : list (pystr * V)) : option V :=
  match d with
  | [] => None
  | (k', v) :: rest => if str_eqb k k' then Some v else dict_lookup k rest
  end.

(** [d.get(k, default)] *)
Definition dict_get {V : Type} (d : list (pystr * V)) (k : pystr) (default : V) : V :=
  match dict_lookup k d with
  | Some v => v
  | None => default
  end.

(** [v[k]] for a string key [k].  The message of a [KeyError] is the
    [repr] of the key: for the keys of this module, all plain identifiers,
    the key between single quotes. *)
Definition py_getitem (v : pyval) (k : pystr) : outcome pyval :=
  match v with
  | PDict d =>
    match dict_lookup k d with
    | Some x => Returns x
    | None => Raises (Exn KeyError (u8 "'" ++ k ++ u8 "'"))
    end
  | PList _ =>
    Raises (Exn TypeError (u8 "list indices must be integers or slices, not str"))
  | PStr _ =>
    Raises (Exn TypeError (u8 "string indices must be integers, not 'str'"))
  | PNone => Raises (Exn TypeError (u8 "'NoneType' object is not subscriptable"))
  | PBool _ => Raises (Exn TypeError (u8 "'bool' object is not subscriptable"))
  | PInt _ => Raises (Exn TypeError (u8 "'int' object is not subscriptable"))
  end.

(** Keys of a dict, up to Python's [==]: [True == 1] and [False == 0]. *)
Inductive ckey : Type :=
| KNone
| KInt (z : Z)
| KStr (s : pystr).

(** [hash(v)]: lists and dicts are unhashable. *)
Definition py_hash_key (v : pyval) : outcome ckey :=
  match v with
  | PNone => Returns KNone
  | PBool b => Returns (KInt (if b then 1 else 0))
  | PInt z => Returns (KInt z)
  | PStr s => Returns (KStr s)
  | PList _ => Raises (Exn TypeError (u8 "unhashable type: 'list'"))
  | PDict _ => Raises (Exn TypeError (u8 "unhashable type: 'dict'"))
  end.

#[global] Instance ckey_eq_dec : EqDecision ckey.
Proof. solve_decision. Defined.

Definition ckey_to_sum (k : ckey) : unit + Z + pystr :=
  match k with
  | KNone => inl (inl tt)
  | KInt z => inl (inr z)
  | KStr s => inr s
  end.

Definition ckey_of_sum (x : unit + Z + pystr) : ckey :=
  match x with
  | inl (inl _) => KNone
  | inl (inr z) => KInt z
  | inr s => KStr s
  end.

#[global] Instance ckey_countable : Countable ckey.
Proof.
  apply (inj_countable' ckey_to_sum ckey_of_sum).
  intros []; reflexivity.
Defined.

End PyVal.
Export PyVal.


(** ** Effects: state, exceptions, [try]/[except] *)

Module Eff.

Definition Eff (S A : Type) : Type := S -> outcome A * S.

Definition ret {S A : Type} (a : A) : Eff S A := fun s => (Returns a, s).

Definition bind {S A B : Type} (m : Eff S A) (k : A -> Eff S B) : Eff S B :=
  fun s =>
    match m s with
    | (Returns a, s') => k a s'
    | (Raises e, s') => (Raises e, s')
    end.

(** [try: body  except Exception as e: handler]: what [body] did to the
    state before raising stays done. *)
Definition try_except {S A : Type} (body : Eff S A) (handler : exn -> Eff S A)
  : Eff S A :=
  fun s =>
    match body s with
    | (Returns a, s') => (Returns a, s')
    | (Raises e, s') => handler e s'
    end.

(** The value of a pure expression that may raise. *)
Definition eval {S A : Type} (o : outcome A) : Eff S A := fun s => (o, s).

Definition get {S : Type} : Eff S S := fun s => (Returns s, s).

Definition modify {S : Type} (f : S -> S) : Eff S unit := fun s => (Returns tt, f s).

(** Run a computation on a part of the state. *)
Definition zoom {S T A : Type} (proj : S -> T) (put : T -> S -> S) (m : Eff T A)
  : Eff S A :=
  fun s => let (o, t) := m (proj s) in (o, put t s).

(** Run a computation with a fresh local variable and drop it at the end. *)
Definition with_local {L S A : Type} (init : L) (m : Eff (L * S) A) : Eff S A :=
  fun s => let (o, ls) := m (init, s) in (o, snd ls).

End Eff.
Export Eff.

Declare Scope eff_scope.
Delimit Scope eff_scope with eff.
Notation "x <- c1 ;; c2" := (bind c1 (fun x => c2))
  (at level 100, c1 at next level, right associativity) : eff_scope.
Notation "c1 ;; c2" := (bind c1 (fun _ => c2))
  (at level 100, right associativity) : eff_scope.
#[local] Open Scope eff_scope.

(** ** Data model *)

(** One hit of the search backend: a dict from strings to strings, read
    with [r.get(key, '')]. *)
Definition hit : Type := list (pystr * pystr).

(** SearchResult: the dict [search_web] builds for each hit. *)
Record search_result : Type := SearchResult {
  title : pystr;
  snippet : pystr;
  full_content : pystr;
  url : pystr
}.

Record message : Type := Message { role : pystr; content : pystr }.

(** Arguments of [client.chat.completions.create]. *)
Record llm_request : Type := LlmRequest {
  model : pystr;
  messages : list message;
  temperature : float;
  response_format : option pystr;
  max_tokens : option Z
}.

Record completion_usage : Type := Usage {
  prompt_tokens : Z;
  completion_tokens : Z;
  total_tokens : Z
}.

(** The reply of the chat-completion client: the [message.content] of each
    choice (which may be [None]) and the optional [usage]. *)
Record llm_response : Type := LlmResponse {
  choices : list (option pystr);
  usage : option completion_usage
}.

(** Keyword arguments of [ddgs.text]. *)
Record search_params : Type := SearchParams {
  sp_query : pyval;
  sp_max_results : Z;
  sp_safesearch : pystr;
  sp_region : option pystr
}.

(** The calls that leave the process, in the order they are made. *)
Inductive event : Type :=
| ChatCompletion (req : llm_request)
| DdgsText (params : search_params)
| HttpGet (target : pystr).

Definition world : Type := list event.

(** The collaborators.  The first three answer a call given the calls made
    so far; [page_text] stands for lines 96-109 of [fetch_webpage_content]
    (GET, decoding, HTML parsing, removal of script/style/nav/footer/header,
    [get_text]).  [json_loads] and [py_repr] are Python's own. *)
Record env : Type := Env {
  chat_completions_create : world -> llm_request -> outcome llm_response;
  ddgs_text : world -> search_params -> outcome (list hit);
  page_text : world -> pystr -> outcome pystr;
  json_loads : pystr -> outcome pyval;
  py_repr : pyval -> pystr
}.

(** [str(v)], as an f-string formats [{v}]. *)
Definition py_str (E : env) (v : pyval) : pystr :=
  match v with
  | PNone => u8 "None"
  | PBool true => u8 "True"
  | PBool false => u8 "False"
  | PInt z => str_of_int z
  | PStr s => s
  | PList _ | PDict _ => py_repr E v
  end.

(** [float(n)] for an [int]: rounded to the nearest double, ties to even. *)
Definition float_of_int (z : Z) : outcome float :=
  let f := SF2Prim (binary_normalize 53 1024 z 0 false) in
  if PrimFloat.is_infinity f
  then Raises (Exn OverflowError (u8 "int too large to convert to float"))
  else Returns f.


(** ** MCPSearchEngine *)

Section MCPSearchEngine.

Variable E : env.

Definition client_create (req : llm_request) : Eff world llm_response :=
  fun w => (chat_completions_create E w req, w ++ [ChatCompletion req]).

Definition ddgs_text_call (params : search_params) : Eff world (list hit) :=
  fun w => (ddgs_text E w params, w ++ [DdgsText params]).

Definition page_text_call (target : pystr) : Eff world pystr :=
  fun w => (page_text E w target, w ++ [HttpGet target]).

(** [response.choices[0].message.content] *)
Definition first_choice_content (resp : llm_response) : outcome (option pystr) :=
  match choices resp with
  | [] => Raises (Exn IndexError (u8 "list index out of range"))
  | c :: _ => Returns c
  end.

(** [json.loads(content)] *)
Definition json_loads_content (c : option pystr) : outcome pyval :=
  match c with
  | Some s => json_loads E s
  | None =>
    Raises (Exn TypeError
      (u8 "the JSON object must be str, bytes or bytearray, not NoneType"))
  end.

(** [len(summary)] *)
Definition len_content (c : option pystr) : outcome Z :=
  match c with
  | Some s => Returns (py_len s)
  | None => Raises (Exn TypeError (u8 "object of type 'NoneType' has no len()"))
  end.

Definition decision_prompt (user_message : pystr) (character_name : pyval) : pystr :=
  u8 "你是一个智能搜索策略助手，负责判断用户的问题是否需要网络搜索，并生成最优搜索词。

角色：" ++ py_str E character_name ++ u8 "
用户问题：" ++ user_message ++ u8 "

**需要搜索的情况：**
1. 涉及具体的历史事件、故事情节细节
2. 提到原著中的具体场景、对话、台词
3. 询问角色背景故事的详细内容（如称号由来、经历、关系等）
4. 需要引用原作内容的问题
5. 询问具体的技术细节、专业知识
6. 需要真实数据、事实核查的问题

**搜索词生成原则：**
1. 使用精确的关键词组合（2-4个词）
2. 优先使用中文，包含核心概念
3. 避免太宽泛（如只搜" ++ DQUOTE ++ u8 "孙悟空" ++ DQUOTE ++ u8 "），要具体（如" ++ DQUOTE ++ u8 "孙悟空 齐天大圣 称号由来" ++ DQUOTE ++ u8 "）
4. 如果是角色相关，加上作品名（如" ++ DQUOTE ++ u8 "西游记 孙悟空 大闹天宫" ++ DQUOTE ++ u8 "）
5. 如果是技术问题，加上关键术语

请以JSON格式回复：
{
    " ++ DQUOTE ++ u8 "need_search" ++ DQUOTE ++ u8 ": true/false,
    " ++ DQUOTE ++ u8 "search_query" ++ DQUOTE ++ u8 ": " ++ DQUOTE ++ u8 "精确的搜索关键词组合" ++ DQUOTE ++ u8 ",
    " ++ DQUOTE ++ u8 "reason" ++ DQUOTE ++ u8 ": " ++ DQUOTE ++ u8 "判断理由（为什么需要/不需要搜索）" ++ DQUOTE ++ u8 "
}".

Definition decision_request (user_message : pystr) (character_name : pyval)
  : llm_request :=
  {| model := u8 "gpt-4o-mini";
     messages := [Message (u8 "user") (decision_prompt user_message character_name)];
     temperature := 0.3%float;
     response_format := Some (u8 "json_object");
     max_tokens := None |}.

(** The dict returned when the decision fails (line 82). *)
Definition DECISION_FAILED : pyval :=
  PDict [(u8 "need_search", PBool false);
         (u8 "search_query", PStr []);
         (u8 "reason", PStr (u8 "决策失败"))].

(** The body of the [try] of [should_search] (lines 70-78). *)
Definition should_search_try (user_message : pystr) (character_name : pyval)
  : Eff world pyval :=
  resp <- client_create (decision_request user_message character_name);;
  c <- eval (first_choice_content resp);;
  result <- eval (json_loads_content c);;
  ret result.

Definition should_search (user_message : pystr) (character_name : pyval)
  : Eff world pyval :=
  try_except
    (should_search_try user_message character_name)
    (fun _ => ret DECISION_FAILED).

(** Lines 112-113: the stripped non-blank lines, joined again. *)
Definition collapse_blank_lines (text : pystr) : pystr :=
  py_join NL
    (map py_strip
       (List.filter (fun line => nonempty (py_strip line)) (py_split LF text))).

(** Lines 116-117. *)
Definition limit_length (text : pystr) (max_length : Z) : pystr :=
  if py_len text >? max_length
  then py_slice_to text max_length ++ u8 "..."
  else text.

Definition fetch_webpage_content (target : pystr) (max_length : Z)
  : Eff world pystr :=
  try_except
    (text <- page_text_call target;;
     let text := collapse_blank_lines text in
     let text := limit_length text max_length in
     ret text)
    (fun _ => ret []).

(** The search strategies of lines 141-145. *)
Record strategy : Type := Strategy { region : option pystr; safesearch : pystr }.

Definition search_strategies : list strategy :=
  [ Strategy None (u8 "moderate");
    Strategy (Some (u8 "wt-wt")) (u8 "moderate");
    Strategy (Some (u8 "cn-zh")) (u8 "off") ].

(** Lines 151-157: [region] is passed only when it is truthy. *)
Definition search_params_of (query : pyval) (max_results : Z) (st : strategy)
  : search_params :=
  {| sp_query := query;
     sp_max_results := max_results;
     sp_safesearch := safesearch st;
     sp_region := match region st with
                  | Some r => if nonempty r then Some r else None
                  | None => None
                  end |}.

(** [search_web] appends to its local list [results]; what a strategy
    appended before raising stays in the list. *)
Definition with_results (A : Type) : Type := Eff (list search_result * world) A.

Definition in_world {L A : Type} (m : Eff world A) : Eff (L * world) A :=
  zoom snd (fun w s => (fst s, w)) m.

Definition results_append (r : search_result) : with_results unit :=
  modify (fun s => (fst s ++ [r], snd s)).

(** Lines 166-180: one entry per hit, fetching the page of each. *)
Fixpoint for_each_hit (hits : list hit) : with_results unit :=
  match hits with
  | [] => ret tt
  | r :: rest =>
    let href := dict_get r (u8 "href") [] in
    let ttl := dict_get r (u8 "title") [] in
    let body := dict_get r (u8 "body") [] in
    page <- in_world (fetch_webpage_content href 3000);;
    results_append
      {| title := ttl;
         snippet := body;
         full_content := if nonempty page then page else body;
         url := href |};;
    for_each_hit rest
  end.

(** The body of the inner [try] (lines 149-184); [true] stands for [break]. *)
Definition try_strategy (query : pyval) (max_results : Z) (st : strategy)
  : with_results bool :=
  search_results_list <- in_world (ddgs_text_call (search_params_of query max_results st));;
  if nonempty search_results_list
  then (for_each_hit search_results_list;; ret true)
  else ret false.

(** Lines 147-188: [except] moves on to the next strategy. *)
Fixpoint for_each_strategy (query : pyval) (max_results : Z)
  (strategies : list strategy) : with_results unit :=
  match strategies with
  | [] => ret tt
  | st :: rest =>
    stop <- try_except (try_strategy query max_results st) (fun _ => ret false);;
    if stop then ret tt else for_each_strategy query max_results rest
  end.

Definition search_web (query : pyval) (max_results : Z)
  : Eff world (list search_result) :=
  with_local []
    (try_except
       (for_each_strategy query max_results search_strategies;;
        s <- get;;
        ret (fst s))
       (fun _ => ret [])).

(** The marker of an empty search. *)
Definition NO_INFO : pystr := u8 "未找到相关信息".

(** Line 217: the block of one source, numbered from 1. *)
Definition source_block (i : nat) (r : search_result) : pystr :=
  u8 "【来源 " ++ str_of_int (Z.of_nat i + 1) ++ u8 "】" ++ title r ++ NL
  ++ u8 "网址：" ++ url r ++ NL ++ NL
  ++ u8 "内容摘要：" ++ NL ++ py_slice_to (full_content r) 1500.

(** Lines 216-219. *)
Definition results_text (results : list search_result) : pystr :=
  (NL ++ NL) ++ py_repeat 61%N 50
  ++ py_join (NL ++ NL) (imap source_block (py_slice_to results 5)).

Definition summary_prompt (query : pyval) (results_text : pystr) : pystr :=
  u8 "你是一个专业的信息提取助手。请仔细阅读以下关于" ++ DQUOTE ++ py_str E query ++ DQUOTE ++ u8 "的网页内容，提取最有价值的信息。

" ++ results_text ++ u8 "

要求：
1. **深度提取**：从网页全文中提取详细的事实信息，包括背景、细节、数据等
2. **结构化输出**：用清晰的段落组织信息，包含：
   - 核心事实（是什么）
   - 背景信息（为什么、怎么来的）
   - 相关细节（具体情况、数据、例子）
3. **保持准确**：只使用搜索结果中的信息，不添加推测
4. **信息丰富**：输出应该是详细的（200-400字），而不是简单概括
5. **去重合并**：如果多个来源有相同信息，合并后只说一次
6. **保持中文**：全部使用中文输出

请提供详细的总结：".

Definition summary_request (query : pyval) (results : list search_result)
  : llm_request :=
  {| model := u8 "gpt-4o-mini";
     messages := [Message (u8 "user") (summary_prompt query (results_text results))];
     temperature := 0.3%float;
     response_format := None;
     max_tokens := Some 1000 |}.

(** Lines 253-256: the summary built without the model. *)
Definition fallback_summary (results : list search_result) : pystr :=
  py_join (NL ++ NL)
    (map (fun r => u8 "【" ++ title r ++ u8 "】" ++ NL ++ py_slice_to (full_content r) 300)
         (py_slice_to results 5)).

Definition summarize_search_results (query : pyval) (results : list search_result)
  : Eff world pystr :=
  if negb (nonempty results) then ret NO_INFO
  else
    try_except
      (resp <- client_create (summary_request query results);;
       summary <- eval (first_choice_content resp);;
       _ <- eval (len_content summary);;
       ret (default [] summary))
      (fun _ => ret (fallback_summary results)).

Definition enhance_context (user_message : pystr) (character_name : pyval)
    (search_results_summary : pystr) : pystr :=
  u8 "
【🔍 MCP背景知识增强】
用户询问：" ++ user_message ++ u8 "

━━━━━━━━━━━━━━━━━━━━━━━━━━━━━━━━━━━━━━━━
📚 相关真实资料（来自网络搜索并经AI提取）：

" ++ search_results_summary ++ u8 "

━━━━━━━━━━━━━━━━━━━━━━━━━━━━━━━━━━━━━━━━

**重要指示：**
1. **优先使用真实资料**：以上搜索结果是从可靠来源提取的真实信息，请将其作为回答的主要依据
2. **融入角色人格**：用" ++ py_str E character_name ++ u8 "的口吻、语言风格、性格特点来表达这些信息
3. **详细且生动**：基于这些详实的背景资料，给出丰富、具体、有细节的回答
4. **第一人称视角**：如果是角色自身的事情，用第一人称讲述（" ++ DQUOTE ++ u8 "我当时..." ++ DQUOTE ++ u8 "）
5. **自然引用**：将背景知识自然地融入对话中，就像角色在回忆或讲述自己的经历
6. **保持真实性**：不要编造搜索结果中没有的信息，如果某些细节不确定，可以说" ++ DQUOTE ++ u8 "我记得大概是..." ++ DQUOTE ++ u8 "

请现在以" ++ py_str E character_name ++ u8 "的身份，基于上述真实资料，回答用户的问题。".

End MCPSearchEngine.

(** ** MCPChatManager *)

(** CacheEntry: a value of [search_cache]. *)
Record cache_entry : Type := CacheEntry {
  summary : pystr;
  results : list search_result
}.

(** The manager: its cache and the calls made so far. *)
Record manager : Type := Manager {
  search_cache : gmap ckey cache_entry;
  calls : world
}.

(** [MCPChatManager.__init__] *)
Definition new_manager : manager := Manager ∅ [].

(** ChatTurnResult: the dict [chat_with_mcp] returns.  [response] is the
    content of the reply, which the client may give as [None]. *)
Record chat_result : Type := ChatResult {
  response : option pystr;
  tokens_used : Z;
  cost : float;
  search_performed : bool;
  search_query : pyval;
  search_summary : pystr;
  search_results : list search_result
}.

(** Lines 337-345. *)
Definition initial_result : chat_result :=
  {| response := Some [];
     tokens_used := 0;
     cost := 0%float;
     search_performed := false;
     search_query := PStr [];
     search_summary := [];
     search_results := [] |}.

Definition set_response (v : option pystr) (r : chat_result) : chat_result :=
  {| response := v; tokens_used := tokens_used r; cost := cost r;
     search_performed := search_performed r; search_query := search_query r;
     search_summary := search_summary r; search_results := search_results r |}.

Definition set_tokens_used (v : Z) (r : chat_result) : chat_result :=
  {| response := response r; tokens_used := v; cost := cost r;
     search_performed := search_performed r; search_query := search_query r;
     search_summary := search_summary r; search_results := search_results r |}.

Definition set_cost (v : float) (r : chat_result) : chat_result :=
  {| response := response r; tokens_used := tokens_used r; cost := v;
     search_performed := search_performed r; search_query := search_query r;
     search_summary := search_summary r; search_results := search_results r |}.

(** Lines 394-397. *)
Definition set_search (q : pyval) (s : pystr) (l : list search_result)
  (r : chat_result) : chat_result :=
  {| response := response r; tokens_used := tokens_used r; cost := cost r;
     search_performed := true; search_query := q;
     search_summary := s; search_results := l |}.

(** Lines 419-422. *)
Definition cost_of (u : completion_usage) : outcome float :=
  match float_of_int (prompt_tokens u) with
  | Raises e => Raises e
  | Returns p =>
    match float_of_int (completion_tokens u) with
    | Raises e => Raises e
    | Returns c => Returns (p * 0.000005 + c * 0.000015)%float
    end
  end.

(** [response.usage.total_tokens] and the like, when [usage] is [None]. *)
Definition usage_of (resp : llm_response) : outcome completion_usage :=
  match usage resp with
  | Some u => Returns u
  | None =>
    Raises (Exn AttributeError
      (u8 "'NoneType' object has no attribute 'total_tokens'"))
  end.

Definition APOLOGY : pystr := u8 "抱歉，回复生成失败：".

Section MCPChatManager.

Variable E : env.

(** [chat_with_mcp] updates its local dict [result] in place. *)
Definition with_result (A : Type) : Type := Eff (chat_result * manager) A.

Definition engine {A : Type} (m : Eff world A) : with_result A :=
  zoom (fun s => calls (snd s))
       (fun w s => (fst s, Manager (search_cache (snd s)) w)) m.

Definition update_result (f : chat_result -> chat_result) : with_result unit :=
  modify (fun s => (f (fst s), snd s)).

Definition cache_lookup (k : ckey) : with_result (option cache_entry) :=
  fun s => (Returns (search_cache (snd s) !! k), s).

Definition cache_store (k : ckey) (e : cache_entry) : with_result unit :=
  modify (fun s => (fst s, Manager (<[k := e]> (search_cache (snd s))) (calls (snd s)))).

(** Lines 359-383: the summary and the results for [search_query], from the
    cache or from a new search. *)
Definition cached_or_search (search_query : pyval)
  : with_result (pystr * list search_result) :=
  k <- eval (py_hash_key search_query);;
  hit <- cache_lookup k;;
  match hit with
  | Some entry => ret (summary entry, results entry)
  | None =>
    search_results <- engine (search_web E search_query 8);;
    if nonempty search_results then
      search_summary <- engine (summarize_search_results E search_query search_results);;
      cache_store k (CacheEntry search_summary search_results);;
      ret (search_summary, search_results)
    else ret (NO_INFO, [])
  end.

(** Lines 348-397: returns the system prompt to use. *)
Definition search_stage (user_message : pystr) (character : list (pystr * pyval))
  (system_prompt : pystr) (enable_search : bool) : with_result pystr :=
  if enable_search then
    name <- eval (py_getitem (PDict character) (u8 "name"));;
    decision <- engine (should_search E user_message name);;
    need_search <- eval (py_getitem decision (u8 "need_search"));;
    if py_truthy need_search then
      search_query <- eval (py_getitem decision (u8 "search_query"));;
      found <- cached_or_search search_query;;
      name <- eval (py_getitem (PDict character) (u8 "name"));;
      let enhanced_context := enhance_context E user_message name (fst found) in
      update_result (set_search search_query (fst found) (snd found));;
      ret (system_prompt ++ NL ++ NL ++ enhanced_context)
    else ret system_prompt
  else ret system_prompt.

(** Lines 400-404. *)
Definition build_messages (system_prompt : pystr) (conversation_history : list message)
  (user_message : pystr) : list message :=
  [Message (u8 "system") system_prompt] ++ conversation_history
  ++ [Message (u8 "user") user_message].

Definition final_request (model_name : pystr) (msgs : list message)
  (temp : float) (max_tok : Z) : llm_request :=
  {| model := model_name;
     messages := msgs;
     temperature := temp;
     response_format := None;
     max_tokens := Some max_tok |}.

(** Lines 407-426. *)
Definition generate (req : llm_request) : with_result unit :=
  try_except
    (resp <- engine (client_create E req);;
     c <- eval (first_choice_content resp);;
     update_result (set_response c);;
     u <- eval (usage_of resp);;
     update_result (set_tokens_used (total_tokens u));;
     v <- eval (cost_of u);;
     update_result (set_cost v))
    (fun e => update_result (set_response (Some (APOLOGY ++ exn_str e)))).

Definition chat_with_mcp (user_message : pystr) (character : list (pystr * pyval))
  (system_prompt : pystr) (conversation_history : list message)
  (enable_search : bool) (model_name : pystr) (temp : float) (max_tok : Z)
  : Eff manager chat_result :=
  with_local initial_result
    (system_prompt <- search_stage user_message character system_prompt enable_search;;
     let msgs := build_messages system_prompt conversation_history user_message in
     generate (final_request model_name msgs temp max_tok);;
     s <- get;;
     ret (fst s)).

End MCPChatManager.

(** ** Scripted collaborators

    Concrete environments on which the model runs: every reply is fixed in
    advance.  The client tells the three kinds of request apart by their
    arguments: only the decision asks for a JSON object, only the summary
    is bounded to 1000 tokens. *)

Module Script.

Record script : Type := {
  decision_reply : outcome llm_response;
  summary_reply : outcome llm_response;
  final_reply : outcome llm_response;
  backend : world -> outcome (list hit);
  page : outcome pystr;
  decoded : list (pystr * pyval)
}.

(** [json.loads] on the replies listed in [table]; any other text is
    rejected. *)
Definition decode_table (table : list (pystr * pyval)) (s : pystr) : outcome pyval :=
  match dict_lookup s table with
  | Some v => Returns v
  | None => Raises (Exn ExternalError (u8 "Expecting value: line 1 column 1 (char 0)"))
  end.

Definition scripted (s : script) : env :=
  {| chat_completions_create := fun _ req =>
       match response_format req, max_tokens req with
       | Some _, _ => decision_reply s
       | None, Some 1000 => summary_reply s
       | None, _ => final_reply s
       end;
     ddgs_text := fun w _ => backend s w;
     page_text := fun _ _ => page s;
     json_loads := decode_table (decoded s);
     py_repr := fun _ => u8 "<object>" |}.

Definition unavailable {A : Type} : outcome A :=
  Raises (Exn ExternalError (u8 "Connection error.")).

Definition reply (text : pystr) (u : option completion_usage) : outcome llm_response :=
  Returns (LlmResponse [Some text] u).

(** The decision reply [{"need_search": true, "search_query": "q"}]. *)
Definition SEARCH_Q_TEXT : pystr :=
  u8 "{" ++ DQUOTE ++ u8 "need_search" ++ DQUOTE ++ u8 ": true, "
  ++ DQUOTE ++ u8 "search_query" ++ DQUOTE ++ u8 ": " ++ DQUOTE ++ u8 "q" ++ DQUOTE
  ++ u8 "}".

Definition SEARCH_Q : pyval :=
  PDict [(u8 "need_search", PBool true); (u8 "search_query", PStr (u8 "q"))].

Definition one_hit : list hit :=
  [[(u8 "title", u8 "T"); (u8 "href", u8 "http://a"); (u8 "body", u8 "B")]].

Definition hero : list (pystr * pyval) := [(u8 "name", PStr (u8 "hero"))].


(** The decision asks for a search of [q]; the backend finds one page. *)
Definition search_finds : script :=
  {| decision_reply := reply SEARCH_Q_TEXT (Some (Usage 7 3 10));
     summary_reply := reply (u8 "S") (Some (Usage 20 5 25));
     final_reply := reply (u8 "R") (Some (Usage 100 50 150));
     backend := fun _ => Returns one_hit;
     page := Returns (u8 "page text");
     decoded := [(SEARCH_Q_TEXT, SEARCH_Q)] |}.

(** As [search_finds], but the backend finds nothing during the first turn:
    the first turn makes five calls in all. *)
Definition finds_later : script :=
  {| decision_reply := reply SEARCH_Q_TEXT None;
     summary_reply := reply (u8 "S") None;
     final_reply := reply (u8 "R") (Some (Usage 100 50 150));
     backend := fun w => if (length w <? 5)%nat then Returns [] else Returns one_hit;
     page := Returns (u8 "page text");
     decoded := [(SEARCH_Q_TEXT, SEARCH_Q)] |}.

(** The decision reply is the JSON object [{}]. *)
Definition empty_object : script :=
  {| decision_reply := reply (u8 "{}") None;
     summary_reply := unavailable;
     final_reply := reply (u8 "R") (Some (Usage 100 50 150));
     backend := fun _ => unavailable;
     page := unavailable;
     decoded := [(u8 "{}", PDict [])] |}.

(** The backend returns a hit that has no [href]. *)
Definition hit_without_href : script :=
  {| decision_reply := unavailable; summary_reply := unavailable;
     final_reply := unavailable;
     backend := fun _ => Returns [[(u8 "title", u8 "T"); (u8 "body", u8 "B")]];
     page := unavailable; decoded := [] |}.


(** A turn with the default arguments of [chat_with_mcp]. *)
Definition turn (s : script) (user_message : pystr) : Eff manager chat_result :=
  chat_with_mcp (scripted s) user_message hero (u8 "You are hero.") []
    true (u8 "gpt-4o-ca") 0.8%float 2000.

End Script.

(** More scripted collaborators, for the edge cases of the replies. *)

Module Cases.

(** The summary reply has a choice whose content is [None]. *)
Definition null_summary : Script.script :=
  {| Script.decision_reply := Script.unavailable;
     Script.summary_reply := Returns (LlmResponse [None] None);
     Script.final_reply := Script.unavailable;
     Script.backend := fun _ => Script.unavailable;
     Script.page := Script.unavailable;
     Script.decoded := [] |}.

(** The decision reply [{"need_search": "false", "search_query": "q"}]:
    [need_search] is a string. *)
Definition FALSE_STRING_TEXT : pystr :=
  u8 "{" ++ DQUOTE ++ u8 "need_search" ++ DQUOTE ++ u8 ": "
  ++ DQUOTE ++ u8 "false" ++ DQUOTE ++ u8 ", "
  ++ DQUOTE ++ u8 "search_query" ++ DQUOTE ++ u8 ": " ++ DQUOTE ++ u8 "q" ++ DQUOTE
  ++ u8 "}".

Definition FALSE_STRING : pyval :=
  PDict [(u8 "need_search", PStr (u8 "false")); (u8 "search_query", PStr (u8 "q"))].

Definition says_false : Script.script :=
  {| Script.decision_reply := Script.reply FALSE_STRING_TEXT None;
     Script.summary_reply := Script.reply (u8 "S") None;
     Script.final_reply := Script.reply (u8 "R") (Some (Usage 100 50 150));
     Script.backend := fun _ => Returns Script.one_hit;
     Script.page := Returns (u8 "page text");
     Script.decoded := [(FALSE_STRING_TEXT, FALSE_STRING)] |}.

(** The final reply carries no [usage]. *)
Definition no_usage : Script.script :=
  {| Script.decision_reply := Script.unavailable;
     Script.summary_reply := Script.unavailable;
     Script.final_reply := Script.reply (u8 "R") None;
     Script.backend := fun _ => Script.unavailable;
     Script.page := Script.unavailable;
     Script.decoded := [] |}.

End Cases.

(** ** Vocabulary of the properties *)

(** The entry [search_web] builds for a hit carries the hit's fields. *)
Definition built_from (h : hit) (r : search_result) : Prop :=
  title r = dict_get h (u8 "title") []
  /\ snippet r = dict_get h (u8 "body") []
  /\ url r = dict_get h (u8 "href") [].

(** What lines 407-426 leave in [result], given the outcome of the final
    call: the fields written before an exception stay written. *)
Definition generated (o : outcome llm_response) (r : chat_result) : chat_result :=
  let apologise e r := set_response (Some (APOLOGY ++ exn_str e)) r in
  match o with
  | Raises e => apologise e r
  | Returns resp =>
    match first_choice_content resp with
    | Raises e => apologise e r
    | Returns c =>
      let r1 := set_response c r in
      match usage_of resp with
      | Raises e => apologise e r1
      | Returns u =>
        let r2 := set_tokens_used (total_tokens u) r1 in
        match cost_of u with
        | Raises e => apologise e r2
        | Returns v => set_cost v r2
        end
      end
    end
  end.

Section TurnCases.

Variable E : env.

(** How lines 359-383 serve a query: the outcome and the manager after. *)
Inductive served (q : pyval) (m : manager)
  : outcome (pystr * list search_result) -> manager -> Prop :=
| served_unhashable e :
    py_hash_key q = Raises e ->
    served q m (Raises e) m
| served_from_cache k entry :
    py_hash_key q = Returns k ->
    search_cache m !! k = Some entry ->
    served q m (Returns (summary entry, results entry)) m
| served_from_search k rs w1 s w2 :
    py_hash_key q = Returns k ->
    search_cache m !! k = None ->
    search_web E q 8 (calls m) = (Returns rs, w1) ->
    rs <> [] ->
    summarize_search_results E q rs w1 = (Returns s, w2) ->
    served q m (Returns (s, rs))
      (Manager (<[k := CacheEntry s rs]> (search_cache m)) w2)
| served_nothing k w1 :
    py_hash_key q = Returns k ->
    search_cache m !! k = None ->
    search_web E q 8 (calls m) = (Returns [], w1) ->
    served q m (Returns (NO_INFO, [])) (Manager (search_cache m) w1).

(** How lines 348-397 end: the system prompt to use (or the exception
    raised), the [result] dict and the manager. *)
Inductive staged (um : pystr) (ch : list (pystr * pyval)) (sp : pystr)
  (r : chat_result) (m : manager)
  : bool -> outcome pystr -> chat_result -> manager -> Prop :=
| staged_disabled :
    staged um ch sp r m false (Returns sp) r m
| staged_no_name e :
    py_getitem (PDict ch) (u8 "name") = Raises e ->
    staged um ch sp r m true (Raises e) r m
| staged_no_need name d w1 e :
    py_getitem (PDict ch) (u8 "name") = Returns name ->
    should_search E um name (calls m) = (Returns d, w1) ->
    py_getitem d (u8 "need_search") = Raises e ->
    staged um ch sp r m true (Raises e) r (Manager (search_cache m) w1)
| staged_declined name d w1 need :
    py_getitem (PDict ch) (u8 "name") = Returns name ->
    should_search E um name (calls m) = (Returns d, w1) ->
    py_getitem d (u8 "need_search") = Returns need ->
    py_truthy need = false ->
    staged um ch sp r m true (Returns sp) r (Manager (search_cache m) w1)
| staged_no_query name d w1 need e :
    py_getitem (PDict ch) (u8 "name") = Returns name ->
    should_search E um name (calls m) = (Returns d, w1) ->
    py_getitem d (u8 "need_search") = Returns need ->
    py_truthy need = true ->
    py_getitem d (u8 "search_query") = Raises e ->
    staged um ch sp r m true (Raises e) r (Manager (search_cache m) w1)
| staged_unserved name d w1 need q e m2 :
    py_getitem (PDict ch) (u8 "name") = Returns name ->
    should_search E um name (calls m) = (Returns d, w1) ->
    py_getitem d (u8 "need_search") = Returns need ->
    py_truthy need = true ->
    py_getitem d (u8 "search_query") = Returns q ->
    served q (Manager (search_cache m) w1) (Raises e) m2 ->
    staged um ch sp r m true (Raises e) r m2
| staged_searched name d w1 need q s l m2 :
    py_getitem (PDict ch) (u8 "name") = Returns name ->
    should_search E um name (calls m) = (Returns d, w1) ->
    py_getitem d (u8 "need_search") = Returns need ->
    py_truthy need = true ->
    py_getitem d (u8 "search_query") = Returns q ->
    served q (Manager (search_cache m) w1) (Returns (s, l)) m2 ->
    staged um ch sp r m true
      (Returns (sp ++ NL ++ NL ++ enhance_context E um name s))
      (set_search q s l r) m2.

End TurnCases.

(** What [tokens_used] and [cost] report for a reply to the final call: the
    totals of that reply's [usage] when it has a choice and a usage, zero
    when the call failed. *)
Definition billed (o : outcome llm_response) : Z * float :=
  match o with
  | Returns resp =>
    match choices resp, usage resp with
    | _ :: _, Some u =>
      (total_tokens u,
       match cost_of u with Returns v => v | Raises _ => 0%float end)
    | _, _ => (0, 0%float)
    end
  | Raises _ => (0, 0%float)
  end.

(** The invariant of [search_cache]: no entry has an empty result list. *)
Definition cache_ok (c : gmap ckey cache_entry) : Prop :=
  map_Forall (fun _ entry => results entry <> []) c.



(** A string that does not begin with whitespace. *)
Definition head_ok (l : pystr) : Prop :=
  match l with [] => True | c :: _ => py_isspace c = false end.

(** A clean line: not blank, without surrounding whitespace, without a
    line feed. *)
Definition clean_line (l : pystr) : Prop :=
  l <> [] /\ py_strip l = l /\ ~ In LF l.

(** The entry of a hit, with the page text [fetch_webpage_content] gave for
    its [href]: the page when it is not empty, the snippet otherwise. *)
Definition fetched_from (E : env) (h : hit) (r : search_result) : Prop :=
  built_from h r
  /\ exists wf page,
       fetch_webpage_content E (url r) 3000 wf = (Returns page, wf ++ [HttpGet (url r)])
       /\ full_content r = if nonempty page then page else snippet r.

(** The backend call of a strategy and the fetch of an entry, as calls. *)
Definition backend_call (query : pyval) (max_results : Z) (st : strategy) : event :=
  DdgsText (search_params_of query max_results st).

Definition fetch_call (r : search_result) : event := HttpGet (url r).

(** What [summarize_search_results] reads of a result: the title, the url
    and the first 1500 characters of [full_content]. *)
Definition read_by_summary (r : search_result) : search_result :=
  {| title := title r; snippet := []; full_content := firstn 1500 (full_content r);
     url := url r |}.

(** The arguments of one call of [chat_with_mcp]. *)
Record turn_args : Type := TurnArgs {
  arg_user_message : pystr;
  arg_character : list (pystr * pyval);
  arg_system_prompt : pystr;
  arg_conversation_history : list message;
  arg_enable_search : bool;
  arg_model : pystr;
  arg_temperature : float;
  arg_max_tokens : Z
}.

Definition chat_turn (E : env) (a : turn_args) : Eff manager chat_result :=
  chat_with_mcp E (arg_user_message a) (arg_character a) (arg_system_prompt a)
    (arg_conversation_history a) (arg_enable_search a) (arg_model a)
    (arg_temperature a) (arg_max_tokens a).

(** The manager after the host has made these calls one after the other,
    whether they returned or raised. *)
Fixpoint after_turns (E : env) (turns : list turn_args) (m : manager) : manager :=
  match turns with
  | [] => m
  | a :: rest => after_turns E rest (snd (chat_turn E a m))
  end.

Arguments u8 : simpl never.
Arguments decision_prompt : simpl never.
Arguments summary_prompt : simpl never.
Arguments enhance_context : simpl never.
Arguments results_text : simpl never.

(** * Properties *)

(** ** Python strings and numbers on examples *)

Example u8_ascii : u8 "a-z" = [97; 45; 122]%N.
Proof. reflexivity. Qed.

Example u8_cjk : u8 "未找到" = [26410; 25214; 21040]%N.
Proof. reflexivity. Qed.

Example u8_emoji : u8 "🔍" = [128269]%N.
Proof. reflexivity. Qed.

Example split_lines : py_split LF (u8 "a

b") = [u8 "a"; []; u8 "b"].
Proof. reflexivity. Qed.

Example slice_negative : py_slice_to (u8 "abc") (-1) = u8 "ab".
Proof. reflexivity. Qed.

Example str_of_int_42 : str_of_int 42 = u8 "42" /\ str_of_int (-7) = u8 "-7".
Proof. split; reflexivity. Qed.

Example float_of_int_100 : float_of_int 100 = Returns 100%float.
Proof. reflexivity. Qed.

Example float_of_int_huge : exists e, float_of_int (2 ^ 1024) = Raises e.
Proof. eexists. vm_compute. reflexivity. Qed.

Example collapse_blank_lines_strips :
  collapse_blank_lines (u8 "  a " ++ NL ++ u8 "   " ++ NL ++ NL ++ u8 " b c" ++ NL)
  = u8 "a" ++ NL ++ u8 "b c".
Proof. reflexivity. Qed.

Example limit_length_short : limit_length (u8 "abc") 3 = u8 "abc".
Proof. reflexivity. Qed.

Example region_only_when_given :
  map (fun st => sp_region (search_params_of (PStr (u8 "q")) 8 st)) search_strategies
  = [None; Some (u8 "wt-wt"); Some (u8 "cn-zh")].
Proof. reflexivity. Qed.

Example source_block_first :
  source_block 0 (SearchResult (u8 "T") (u8 "B") (u8 "C") (u8 "U"))
  = u8 "【来源 1】T" ++ NL ++ u8 "网址：U" ++ NL ++ NL ++ u8 "内容摘要：" ++ NL ++ u8 "C".
Proof. reflexivity. Qed.

Example cost_of_100_50 : cost_of (Usage 100 50 150) = Returns 0.00125%float.
Proof. vm_compute. reflexivity. Qed.

(** A searching turn on a fresh manager: the reply, the usage of the final
    call, the search fields, and the entry left in the cache. *)
Example searching_turn :
  Script.turn Script.search_finds (u8 "hi") new_manager
  = (Returns
       {| response := Some (u8 "R");
          tokens_used := 150;
          cost := 0.00125%float;
          search_performed := true;
          search_query := PStr (u8 "q");
          search_summary := u8 "S";
          search_results :=
            [SearchResult (u8 "T") (u8 "B") (u8 "page text") (u8 "http://a")] |},
     snd (Script.turn Script.search_finds (u8 "hi") new_manager))
  /\ search_cache (snd (Script.turn Script.search_finds (u8 "hi") new_manager))
     !! KStr (u8 "q")
     = Some (CacheEntry (u8 "S")
               [SearchResult (u8 "T") (u8 "B") (u8 "page text") (u8 "http://a")])
  /\ length (calls (snd (Script.turn Script.search_finds (u8 "hi") new_manager))) = 5%nat.
Proof. repeat split; vm_compute; reflexivity. Qed.

Lemma str_eqb_eq (a b : pystr) : str_eqb a b = true <-> a = b.
Proof.
  revert b. induction a as [|x a IH]; intros [|y b]; simpl; try easy.
  rewrite andb_true_iff, N.eqb_eq, IH. split.
  - intros [-> ->]. reflexivity.
  - intros H. injection H as -> ->. auto.
Qed.

Lemma str_eqb_refl (a : pystr) : str_eqb a a = true.
Proof. apply str_eqb_eq. reflexivity. Qed.

(** ** The engine: every method returns *)

Section EngineFacts.

Variable E : env.

Lemma should_search_try_calls um cn w :
  snd (should_search_try E um cn w) = w ++ [ChatCompletion (decision_request E um cn)].
Proof.
  cbv beta iota zeta delta [should_search_try bind client_create eval ret].
  destruct (chat_completions_create E w _) as [resp|e]; [|reflexivity].
  destruct (first_choice_content resp) as [c|e]; [|reflexivity].
  destruct (json_loads_content E c); reflexivity.
Qed.

(** The decision step fails in three ways: the call raises, the reply has
    no first choice, or its content ([None] included) does not decode. *)
Lemma should_search_try_raises um cn w e w' :
  should_search_try E um cn w = (Raises e, w')
  <-> w' = w ++ [ChatCompletion (decision_request E um cn)]
      /\ (chat_completions_create E w (decision_request E um cn) = Raises e
          \/ exists resp,
               chat_completions_create E w (decision_request E um cn) = Returns resp
               /\ (first_choice_content resp = Raises e
                   \/ exists c,
                        first_choice_content resp = Returns c
                        /\ json_loads_content E c = Raises e)).
Proof.
  cbv beta iota zeta delta [should_search_try bind client_create eval ret].
  destruct (chat_completions_create E w _) as [resp|e0];
    [destruct (first_choice_content resp) as [c|e1] eqn:Hc;
     [destruct (json_loads_content E c) as [d|e2] eqn:Hj|]|];
    (split;
     [ intros H; first [discriminate H | injection H as <- <-; split; [reflexivity|]; eauto 10]
     | intros (-> & [H | (resp0 & Hr & [H | (c0 & Hc0 & H)])]); congruence ]).
Qed.

Lemma should_search_decoded um cn w d w' :
  should_search_try E um cn w = (Returns d, w') ->
  should_search E um cn w = (Returns d, w').
Proof. intros H. unfold should_search, try_except. rewrite H. reflexivity. Qed.

Lemma should_search_failed um cn w e w' :
  should_search_try E um cn w = (Raises e, w') ->
  should_search E um cn w = (Returns DECISION_FAILED, w').
Proof. intros H. unfold should_search, try_except. rewrite H. reflexivity. Qed.

Lemma should_search_total um cn w :
  exists d,
    should_search E um cn w
    = (Returns d, w ++ [ChatCompletion (decision_request E um cn)]).
Proof.
  pose proof (should_search_try_calls um cn w) as Hc.
  destruct (should_search_try E um cn w) as [[d|e] w'] eqn:Ht; simpl in Hc; subst w'.
  - exists d. apply should_search_decoded, Ht.
  - exists DECISION_FAILED. eapply should_search_failed, Ht.
Qed.

Lemma fetch_webpage_content_total target max_length w :
  exists text,
    fetch_webpage_content E target max_length w = (Returns text, w ++ [HttpGet target]).
Proof.
  cbv beta iota zeta delta [fetch_webpage_content try_except bind page_text_call ret].
  destruct (page_text E w target); eauto.
Qed.

Lemma for_each_hit_run hits :
  forall acc w, exists new w',
    for_each_hit E hits (acc, w) = (Returns tt, (acc ++ new, w'))
    /\ Forall2 built_from hits new.
Proof.
  induction hits as [|h hits IH]; intros acc w.
  - exists [], w. rewrite app_nil_r. split; [reflexivity | constructor].
  - cbn [for_each_hit].
    destruct (fetch_webpage_content_total (dict_get h (u8 "href") []) 3000 w)
      as [page Hpage].
    cbv beta iota zeta delta [bind in_world zoom results_append modify fst snd].
    rewrite Hpage.
    match goal with
    | |- context [for_each_hit E hits (?a, ?b)] => destruct (IH a b) as (new & w' & Hrun & Hnew)
    end.
    rewrite Hrun. rewrite <- app_assoc.
    eexists (_ :: new), w'. split; [reflexivity|].
    constructor; [|exact Hnew]. repeat split.
Qed.

(** A strategy either leaves [results] as it is, or appends one entry per
    hit of its non-empty hit list and stops the loop. *)
Lemma try_strategy_run query max_results st acc w :
  exists o new w',
    try_except (try_strategy E query max_results st) (fun _ => ret false) (acc, w)
    = (Returns o, (acc ++ new, w'))
    /\ ((o = false /\ new = [])
        \/ (o = true /\ exists hits,
              ddgs_text E w (search_params_of query max_results st) = Returns hits
              /\ hits <> [] /\ Forall2 built_from hits new)).
Proof.
  cbv beta iota zeta delta
    [try_except try_strategy bind in_world zoom ddgs_text_call ret fst snd].
  destruct (ddgs_text E w (search_params_of query max_results st)) as [hits|e] eqn:Hd.
  - destruct hits as [|h hits]; cbn [nonempty].
    + exists false, [], (w ++ [DdgsText (search_params_of query max_results st)]).
      rewrite app_nil_r. split; [reflexivity | left; split; reflexivity].
    + destruct (for_each_hit_run (h :: hits) acc
                  (w ++ [DdgsText (search_params_of query max_results st)]))
        as (new & w' & Hrun & Hnew).
      rewrite Hrun. exists true, new, w'. split; [reflexivity|].
      right. split; [reflexivity|]. exists (h :: hits). repeat split; [discriminate | exact Hnew].
  - exists false, [], (w ++ [DdgsText (search_params_of query max_results st)]).
    rewrite app_nil_r. split; [reflexivity | left; split; reflexivity].
Qed.

Lemma for_each_strategy_run query max_results strategies :
  forall acc w, exists new w',
    for_each_strategy E query max_results strategies (acc, w)
    = (Returns tt, (acc ++ new, w'))
    /\ (new = []
        \/ exists wb st hits,
             In st strategies
             /\ ddgs_text E wb (search_params_of query max_results st) = Returns hits
             /\ hits <> [] /\ Forall2 built_from hits new).
Proof.
  induction strategies as [|st rest IH]; intros acc w.
  - exists [], w. rewrite app_nil_r. split; [reflexivity | left; reflexivity].
  - cbn [for_each_strategy]. unfold bind at 1.
    destruct (try_strategy_run query max_results st acc w)
      as (o & new & w' & Hrun & [[-> ->] | [-> (hits & Hd & Hne & Hnew)]]);
      rewrite Hrun.
    + rewrite app_nil_r.
      destruct (IH acc w') as (new' & w'' & Hrest & Hcase).
      exists new', w''. split; [exact Hrest|].
      destruct Hcase as [-> | (wb & st' & hits & Hin & Hd & Hne & Hnew)]; [left; reflexivity|].
      right. exists wb, st', hits. repeat split; auto. right; exact Hin.
    + exists new, w'. split; [reflexivity|].
      right. exists w, st, hits. repeat split; auto. left; reflexivity.
Qed.

Lemma search_web_run query max_results w :
  exists rs w',
    search_web E query max_results w = (Returns rs, w')
    /\ (rs = []
        \/ exists wb st hits,
             In st search_strategies
             /\ ddgs_text E wb (search_params_of query max_results st) = Returns hits
             /\ hits <> [] /\ Forall2 built_from hits rs).
Proof.
  destruct (for_each_strategy_run query max_results search_strategies [] w)
    as (new & w' & Hrun & Hcase).
  exists new, w'. split; [|exact Hcase].
  unfold search_web, with_local, try_except, bind at 1.
  rewrite Hrun. reflexivity.
Qed.

Lemma summarize_search_results_total query rs w :
  exists s w', summarize_search_results E query rs w = (Returns s, w').
Proof.
  unfold summarize_search_results.
  destruct (negb (nonempty rs)); [eexists _, _; reflexivity|].
  cbv beta iota zeta delta [try_except bind client_create eval ret].
  destruct (chat_completions_create E w _) as [resp|e]; [|eauto].
  destruct (first_choice_content resp) as [c|e]; [|eauto].
  destruct (len_content c); eauto.
Qed.

End EngineFacts.

(** ** The engine: what each method returns *)





(** C7.  On an empty result list [summarize_search_results] returns the
    marker of an empty search and calls nothing. *)
Theorem summarize_empty_results (E : env) (query : pyval) (w : world) :
  summarize_search_results E query [] w = (Returns (u8 "未找到相关信息"), w).
Proof. reflexivity. Qed.




(** ** The manager: one turn, case by case *)

Section ManagerFacts.

Variable E : env.

Lemma generate_run req r m :
  generate E req (r, m)
  = (Returns tt,
     (generated (chat_completions_create E (calls m) req) r,
      Manager (search_cache m) (calls m ++ [ChatCompletion req]))).
Proof.
  cbv beta iota zeta delta
    [generate generated try_except bind engine zoom client_create eval
     update_result modify fst snd].
  destruct (chat_completions_create E (calls m) req) as [resp|e]; [|reflexivity].
  destruct (first_choice_content resp) as [c|e]; [|reflexivity].
  destruct (usage_of resp) as [u|e]; [|reflexivity].
  destruct (cost_of u); reflexivity.
Qed.

Lemma chat_with_mcp_run um ch sp hist en mo t mt m :
  chat_with_mcp E um ch sp hist en mo t mt m
  = match search_stage E um ch sp en (initial_result, m) with
    | (Returns sp', (r0, m1)) =>
      let req := final_request mo (build_messages sp' hist um) t mt in
      (Returns (generated (chat_completions_create E (calls m1) req) r0),
       Manager (search_cache m1) (calls m1 ++ [ChatCompletion req]))
    | (Raises e, (_, m1)) => (Raises e, m1)
    end.
Proof.
  unfold chat_with_mcp, with_local. unfold bind at 1.
  destruct (search_stage E um ch sp en (initial_result, m)) as [[sp'|e] [r0 m1]];
    [|reflexivity].
  unfold bind at 1. rewrite generate_run. reflexivity.
Qed.

Lemma cached_or_search_served q r m :
  exists o m', cached_or_search E q (r, m) = (o, (r, m')) /\ served E q m o m'.
Proof.
  unfold cached_or_search. unfold bind at 1, eval.
  destruct (py_hash_key q) as [k|e] eqn:Hk.
  - unfold bind at 1, cache_lookup. cbn [fst snd].
    destruct (search_cache m !! k) as [entry|] eqn:Hlook.
    + eexists _, m. split; [reflexivity|]. eapply served_from_cache; eauto.
    + destruct (search_web_run E q 8 (calls m)) as (rs & w1 & Hweb & _).
      cbv beta iota zeta delta [bind engine zoom fst snd]. rewrite Hweb.
      destruct rs as [|r1 rs]; cbn [nonempty].
      * eexists _, _. split; [reflexivity|]. eapply served_nothing; eauto.
      * destruct (summarize_search_results_total E q (r1 :: rs) w1) as (s & w2 & Hsum).
        cbn [calls search_cache]. rewrite Hsum.
        cbv beta iota zeta delta [cache_store modify ret fst snd].
        cbn [calls search_cache].
        eexists _, _. split; [reflexivity|].
        eapply served_from_search; eauto; discriminate.
  - eexists _, m. split; [reflexivity|]. apply served_unhashable, Hk.
Qed.

Lemma search_stage_staged um ch sp en r m :
  exists o r' m',
    search_stage E um ch sp en (r, m) = (o, (r', m')) /\ staged E um ch sp r m en o r' m'.
Proof.
  unfold search_stage. destruct en.
  2:{ eexists _, _, _. split; [reflexivity | constructor]. }
  unfold bind at 1, eval.
  destruct (py_getitem (PDict ch) (u8 "name")) as [name|e] eqn:Hname.
  2:{ eexists _, _, _. split; [reflexivity | apply staged_no_name, Hname]. }
  destruct (should_search_total E um name (calls m)) as [d Hd].
  unfold bind at 1, engine, zoom. cbn [fst snd]. rewrite Hd.
  unfold bind at 1, eval.
  destruct (py_getitem d (u8 "need_search")) as [need|e] eqn:Hneed.
  2:{ eexists _, _, _. split; [reflexivity | eapply staged_no_need; eauto]. }
  destruct (py_truthy need) eqn:Htruthy.
  2:{ eexists _, _, _. split; [reflexivity | eapply staged_declined; eauto]. }
  unfold bind at 1, eval.
  destruct (py_getitem d (u8 "search_query")) as [q|e] eqn:Hq.
  2:{ eexists _, _, _. split; [reflexivity | eapply staged_no_query; eauto]. }
  unfold bind at 1.
  match goal with
  | |- context [cached_or_search E q (r, ?m1)] =>
    destruct (cached_or_search_served q r m1) as (o & m2 & Hrun & Hserved)
  end.
  rewrite Hrun. destruct o as [[s l]|e].
  - cbv beta iota zeta delta [bind eval update_result modify ret fst snd].
    eexists _, _, _. split; [reflexivity|]. eapply staged_searched; eauto.
  - eexists _, _, _. split; [reflexivity|]. eapply staged_unserved; eauto.
Qed.

Lemma staged_keeps_generation_fields um ch sp r m en o r' m' :
  staged E um ch sp r m en o r' m' ->
  response r' = response r /\ tokens_used r' = tokens_used r /\ cost r' = cost r.
Proof. intros H. destruct H; repeat split. Qed.

Lemma generated_keeps_search_fields o r :
  search_performed (generated o r) = search_performed r
  /\ search_query (generated o r) = search_query r
  /\ search_summary (generated o r) = search_summary r
  /\ search_results (generated o r) = search_results r.
Proof.
  unfold generated.
  destruct o as [resp|e]; [|repeat split].
  destruct (first_choice_content resp); [|repeat split].
  destruct (usage_of resp) as [u|]; [|repeat split].
  destruct (cost_of u); repeat split.
Qed.

Lemma served_keeps_cache_or_adds q m o m' :
  served E q m o m' ->
  forall k,
    search_cache m' !! k = search_cache m !! k
    \/ (search_cache m !! k = None
        /\ exists entry, search_cache m' !! k = Some entry /\ results entry <> []).
Proof.
  intros H k. destruct H as [e He | k0 entry Hk Hl | k0 rs w1 s w2 Hk Hl Hw Hne Hs | k0 w1 Hk Hl Hw];
    cbn [search_cache]; try (left; reflexivity).
  destruct (decide (k0 = k)) as [->|Hneq].
  - right. split; [exact Hl|]. exists (CacheEntry s rs).
    rewrite lookup_insert_eq. split; [reflexivity | exact Hne].
  - left. apply lookup_insert_ne, Hneq.
Qed.

Lemma staged_keeps_cache_or_adds um ch sp r m en o r' m' :
  staged E um ch sp r m en o r' m' ->
  forall k,
    search_cache m' !! k = search_cache m !! k
    \/ (search_cache m !! k = None
        /\ exists entry, search_cache m' !! k = Some entry /\ results entry <> []).
Proof.
  intros H k.
  destruct H; cbn [search_cache]; try (left; reflexivity);
    match goal with
    | Hs : served E _ _ _ _ |- _ => exact (served_keeps_cache_or_adds _ _ _ _ Hs k)
    end.
Qed.

End ManagerFacts.

(** ** The turn: failures *)





(** ** The turn: accounting *)

Lemma generated_billed (o : outcome llm_response) (r : chat_result) :
  tokens_used r = 0 -> cost r = 0%float ->
  (tokens_used (generated o r), cost (generated o r)) = billed o.
Proof.
  intros Htok Hcost. unfold generated, billed, first_choice_content, usage_of.
  destruct o as [[cs us]|e]; cbn [choices usage]; [|cbn; congruence].
  destruct cs as [|c cs]; [cbn; congruence|].
  destruct us as [u|]; [|cbn; congruence].
  destruct (cost_of u); cbn; congruence.
Qed.

(** C9.  In every turn that returns, [tokens_used] and [cost] are those of
    the reply to the final generation call, the last call of the turn: what
    the decision call and the summarisation call report is not counted,
    whether or not a search was performed. *)
Theorem usage_counts_final_call_only (E : env) (um : pystr) (ch : list (pystr * pyval))
  (sp : pystr) (hist : list message) (en : bool) (mo : pystr) (t : float) (mt : Z)
  (m : manager) (r : chat_result) (m' : manager) :
  chat_with_mcp E um ch sp hist en mo t mt m = (Returns r, m') ->
  exists w sp',
    calls m' = w ++ [ChatCompletion (final_request mo (build_messages sp' hist um) t mt)]
    /\ (tokens_used r, cost r)
       = billed (chat_completions_create E w
                   (final_request mo (build_messages sp' hist um) t mt)).
Proof.
  intros Hrun. rewrite chat_with_mcp_run in Hrun.
  destruct (search_stage_staged E um ch sp en initial_result m)
    as (o & r0 & m1 & Hstage & Hst).
  rewrite Hstage in Hrun.
  destruct (staged_keeps_generation_fields E _ _ _ _ _ _ _ _ _ Hst) as (_ & Htok & Hcost).
  destruct o as [sp'|e]; [|discriminate].
  cbv zeta in Hrun. injection Hrun as <- <-.
  exists (calls m1), sp'. split; [reflexivity|].
  apply generated_billed; assumption.
Qed.

Lemma usage_counts_final_call_only_witness :
  exists r m',
    Script.turn Script.search_finds (u8 "hi") new_manager = (Returns r, m')
    /\ search_performed r = true
    /\ (tokens_used r, cost r) = (150, (100 * 0.000005 + 50 * 0.000015)%float)
    /\ exists w sp',
         calls m'
         = w ++ [ChatCompletion
                   (final_request (u8 "gpt-4o-ca")
                      (build_messages sp' [] (u8 "hi")) 0.8%float 2000)]
         /\ (tokens_used r, cost r)
            = billed (chat_completions_create (Script.scripted Script.search_finds) w
                        (final_request (u8 "gpt-4o-ca")
                           (build_messages sp' [] (u8 "hi")) 0.8%float 2000)).
Proof.
  destruct (Script.turn Script.search_finds (u8 "hi") new_manager) as [[r|e] m'] eqn:Hrun.
  - exists r, m'. split; [reflexivity|].
    pose proof Hrun as Hval. vm_compute in Hval. injection Hval as <- <-.
    split; [reflexivity|]. split; [reflexivity|].
    exact (usage_counts_final_call_only (Script.scripted Script.search_finds) (u8 "hi")
             Script.hero (u8 "You are hero.") [] true (u8 "gpt-4o-ca") 0.8%float 2000
             new_manager _ _ Hrun).
  - vm_compute in Hrun. discriminate Hrun.
Defined.

(** ** The turn: the cache *)

Section CacheFacts.

Variable E : env.





Lemma chat_with_mcp_cache um ch sp hist en mo t mt m :
  search_cache (snd (chat_with_mcp E um ch sp hist en mo t mt m))
  = search_cache (snd (snd (search_stage E um ch sp en (initial_result, m)))).
Proof.
  rewrite chat_with_mcp_run.
  destruct (search_stage E um ch sp en (initial_result, m)) as [[sp'|e] [r0 m1]];
    reflexivity.
Qed.

End CacheFacts.

Lemma cache_ok_empty : cache_ok ∅.
Proof. apply map_Forall_empty. Qed.






(** C2 at its failing input.  The decision model replies with the JSON
    object [{}]: [should_search] returns the empty dict, and the turn ends
    with the [KeyError] of [decision['need_search']] instead of a result. *)
Theorem turn_raises_on_empty_decision :
  fst (should_search (Script.scripted Script.empty_object) (u8 "hi") (PStr (u8 "hero")) [])
  = Returns (PDict [])
  /\ fst (Script.turn Script.empty_object (u8 "hi") new_manager)
     = Raises (Exn KeyError (u8 "'need_search'")).
Proof. split; vm_compute; reflexivity. Qed.

(** * Further properties of the module *)

(** ** Lines and whitespace *)

Lemma py_lstrip_head_ok s : head_ok (py_lstrip s).
Proof.
  induction s as [|c r IH]; [exact I|]. cbn [py_lstrip].
  destruct (py_isspace c) eqn:Hc; [exact IH | exact Hc].
Qed.

Lemma py_lstrip_fixed s : head_ok s -> py_lstrip s = s.
Proof. destruct s as [|c r]; [reflexivity|]. cbn [head_ok py_lstrip]. intros ->. reflexivity. Qed.

Lemma py_lstrip_suffix s : exists sp, s = sp ++ py_lstrip s.
Proof.
  induction s as [|c r [sp IH]]; [exists []; reflexivity|]. cbn [py_lstrip].
  destruct (py_isspace c).
  - exists (c :: sp). cbn [app]. f_equal. exact IH.
  - exists []. reflexivity.
Qed.

Lemma py_strip_ends_ok s : head_ok (py_strip s) /\ head_ok (rev (py_strip s)).
Proof.
  unfold py_strip. rewrite rev_involutive. split; [|apply py_lstrip_head_ok].
  pose proof (py_lstrip_head_ok s) as Ha.
  destruct (py_lstrip_suffix (rev (py_lstrip s))) as [sp Hsp].
  apply (f_equal (@rev N)) in Hsp. rewrite rev_involutive, rev_app_distr in Hsp.
  destruct (rev (py_lstrip (rev (py_lstrip s)))) as [|c b]; [exact I|].
  rewrite Hsp in Ha. exact Ha.
Qed.

Lemma py_strip_fixed l : head_ok l -> head_ok (rev l) -> py_strip l = l.
Proof.
  intros H1 H2. unfold py_strip.
  rewrite (py_lstrip_fixed l H1), (py_lstrip_fixed (rev l) H2). apply rev_involutive.
Qed.

Lemma py_strip_idempotent s : py_strip (py_strip s) = py_strip s.
Proof. destruct (py_strip_ends_ok s). apply py_strip_fixed; assumption. Qed.

Lemma py_lstrip_In s c : In c (py_lstrip s) -> In c s.
Proof.
  destruct (py_lstrip_suffix s) as [sp Hsp]. intros H. rewrite Hsp.
  apply in_or_app. right. exact H.
Qed.

Lemma py_strip_In s c : In c (py_strip s) -> In c s.
Proof.
  unfold py_strip. intros H.
  apply in_rev, py_lstrip_In in H. apply in_rev, py_lstrip_In in H. exact H.
Qed.

Lemma py_split_no_sep sep s : Forall (fun l => ~ In sep l) (py_split sep s).
Proof.
  induction s as [|c r IH]; cbn [py_split].
  - constructor; [intros []|constructor].
  - destruct (N.eqb_spec c sep) as [->|Hne].
    + constructor; [intros []|exact IH].
    + destruct (py_split sep r) as [|h t].
      * constructor; [|constructor]. intros [Heq|[]]. congruence.
      * inversion IH as [|? ? Hh Ht]; subst. constructor; [|exact Ht].
        intros [Heq|Hin]; [congruence | exact (Hh Hin)].
Qed.

Lemma py_split_app_sep sep p x :
  ~ In sep p -> py_split sep (p ++ sep :: x) = p :: py_split sep x.
Proof.
  induction p as [|c p IH]; intros Hp; cbn [app py_split].
  - rewrite N.eqb_refl. reflexivity.
  - destruct (N.eqb_spec c sep) as [->|Hne]; [exfalso; apply Hp; left; reflexivity|].
    rewrite IH; [reflexivity|]. intros Hin. apply Hp. right. exact Hin.
Qed.

Lemma py_split_single sep p : ~ In sep p -> py_split sep p = [p].
Proof.
  induction p as [|c p IH]; intros Hp; cbn [py_split]; [reflexivity|].
  destruct (N.eqb_spec c sep) as [->|Hne]; [exfalso; apply Hp; left; reflexivity|].
  rewrite IH; [reflexivity|]. intros Hin. apply Hp. right. exact Hin.
Qed.

(** Splitting what [join] made of lines without line feed gives the lines
    back. *)
Lemma py_split_join sep L :
  Forall (fun l => ~ In sep l) L -> L <> [] -> py_split sep (py_join [sep] L) = L.
Proof.
  induction L as [|p L IH]; intros Hall Hne; [contradiction|].
  inversion Hall as [|? ? Hp HL]; subst.
  destruct L as [|q L].
  - cbn [py_join]. apply py_split_single, Hp.
  - change (py_join [sep] (p :: q :: L)) with (p ++ sep :: py_join [sep] (q :: L)).
    rewrite py_split_app_sep by exact Hp. f_equal. apply IH; [exact HL | discriminate].
Qed.

Lemma collapsed_lines_clean text :
  Forall clean_line
    (map py_strip
       (List.filter (fun line => nonempty (py_strip line)) (py_split LF text))).
Proof.
  apply List.Forall_forall. intros l Hl.
  apply in_map_iff in Hl as (x & <- & Hx).
  apply filter_In in Hx as (Hx & Hnb).
  pose proof (py_split_no_sep LF text) as Hsep.
  rewrite List.Forall_forall in Hsep. specialize (Hsep x Hx).
  repeat split.
  - intros Heq. rewrite Heq in Hnb. discriminate.
  - apply py_strip_idempotent.
  - intros Hin. apply Hsep, py_strip_In, Hin.
Qed.

Lemma collapse_of_clean L :
  Forall clean_line L -> collapse_blank_lines (py_join NL L) = py_join NL L.
Proof.
  intros Hall. destruct L as [|p L]; [reflexivity|].
  unfold collapse_blank_lines. unfold NL at 1.
  rewrite py_split_join.
  - f_equal.
    assert (Hfilter : List.filter (fun line => nonempty (py_strip line)) (p :: L) = p :: L).
    { apply forallb_filter_id, forallb_forall. intros l Hl.
      rewrite List.Forall_forall in Hall. destruct (Hall l Hl) as (Hne & Hfix & _).
      rewrite Hfix. destruct l; [contradiction | reflexivity]. }
    rewrite Hfilter.
    rewrite <- (map_id (p :: L)) at 2. apply map_ext_in. intros l Hl.
    rewrite List.Forall_forall in Hall. apply (Hall l Hl).
  - eapply List.Forall_impl; [|exact Hall]. intros l (_ & _ & H). exact H.
  - discriminate.
Qed.

(** X1.  The text [fetch_webpage_content] keeps of a page is a sequence of
    clean lines joined by single line feeds: no line is blank, none begins
    or ends with whitespace. *)
Theorem collapse_blank_lines_clean (text : pystr) :
  exists L,
    collapse_blank_lines text = py_join [LF] L
    /\ Forall (fun l => l <> [] /\ py_strip l = l /\ ~ In LF l) L.
Proof. eexists. split; [reflexivity|]. apply collapsed_lines_clean. Qed.

(** X2.  Collapsing is idempotent: a text that went through lines 112-113
    is left unchanged by a second pass. *)
Theorem collapse_blank_lines_idempotent (text : pystr) :
  collapse_blank_lines (collapse_blank_lines text) = collapse_blank_lines text.
Proof. unfold collapse_blank_lines at 2 3. apply collapse_of_clean, collapsed_lines_clean. Qed.



(** ** The calls of a search *)

Section SearchTrace.

Variable E : env.

Lemma for_each_hit_trace hits :
  forall acc w, exists new,
    for_each_hit E hits (acc, w) = (Returns tt, (acc ++ new, w ++ map fetch_call new))
    /\ Forall2 (fetched_from E) hits new.
Proof.
  induction hits as [|h hits IH]; intros acc w.
  - exists []. cbn [map]. rewrite !app_nil_r. split; [reflexivity | constructor].
  - cbn [for_each_hit].
    destruct (fetch_webpage_content_total E (dict_get h (u8 "href") []) 3000 w)
      as [page Hpage].
    cbv beta iota zeta delta [bind in_world zoom results_append modify fst snd].
    rewrite Hpage.
    match goal with
    | |- context [for_each_hit E hits (acc ++ [?r], ?b)] =>
      destruct (IH (acc ++ [r]) b) as (new & Hrun & Hnew); exists (r :: new)
    end.
    rewrite Hrun. rewrite <- !app_assoc. split; [reflexivity|].
    constructor; [|exact Hnew].
    split; [repeat split|]. exists w, page. split; [exact Hpage | reflexivity].
Qed.

Lemma try_strategy_trace query max_results st acc w :
  exists o new,
    try_except (try_strategy E query max_results st) (fun _ => ret false) (acc, w)
    = (Returns o,
       (acc ++ new, w ++ [backend_call query max_results st] ++ map fetch_call new))
    /\ ((o = false /\ new = []
         /\ (ddgs_text E w (search_params_of query max_results st) = Returns []
             \/ exists e, ddgs_text E w (search_params_of query max_results st) = Raises e))
        \/ (o = true /\ exists hits,
              ddgs_text E w (search_params_of query max_results st) = Returns hits
              /\ hits <> [] /\ Forall2 (fetched_from E) hits new)).
Proof.
  cbv beta iota zeta delta
    [try_except try_strategy bind in_world zoom ddgs_text_call ret fst snd].
  destruct (ddgs_text E w (search_params_of query max_results st)) as [hits|e] eqn:Hd.
  - destruct hits as [|h hits]; cbn [nonempty].
    + exists false, []. cbn [map]. rewrite !app_nil_r.
      split; [reflexivity|]. left. repeat split. left. reflexivity.
    + destruct (for_each_hit_trace (h :: hits) acc
                  (w ++ [DdgsText (search_params_of query max_results st)]))
        as (new & Hrun & Hnew).
      rewrite Hrun. exists true, new. rewrite <- app_assoc.
      split; [reflexivity|]. right. split; [reflexivity|].
      exists (h :: hits). repeat split; [discriminate | exact Hnew].
  - exists false, []. cbn [map]. rewrite !app_nil_r.
    split; [reflexivity|]. left. repeat split. right. exists e. reflexivity.
Qed.

Lemma for_each_strategy_trace query max_results strategies :
  forall acc w, exists new k,
    for_each_strategy E query max_results strategies (acc, w)
    = (Returns tt,
       (acc ++ new,
        w ++ map (backend_call query max_results) (firstn k strategies)
          ++ map fetch_call new))
    /\ ((new = [] /\ k = length strategies)
        \/ exists j st hits,
             k = S j
             /\ nth_error strategies j = Some st
             /\ ddgs_text E
                  (w ++ map (backend_call query max_results) (firstn j strategies))
                  (search_params_of query max_results st) = Returns hits
             /\ hits <> [] /\ Forall2 (fetched_from E) hits new).
Proof.
  induction strategies as [|st rest IH]; intros acc w.
  - exists [], 0%nat. cbn [firstn map]. rewrite !app_nil_r.
    split; [reflexivity | left; split; reflexivity].
  - cbn [for_each_strategy]. unfold bind at 1.
    destruct (try_strategy_trace query max_results st acc w)
      as (o & new & Hrun & [(-> & -> & _) | (-> & hits & Hd & Hne & Hnew)]);
      rewrite Hrun.
    + cbn [map]. rewrite !app_nil_r.
      destruct (IH acc (w ++ [backend_call query max_results st]))
        as (new' & k & Hrest & Hcase).
      exists new', (S k). cbn [firstn map]. rewrite <- app_assoc in Hrest.
      split; [exact Hrest|].
      destruct Hcase as [(-> & ->) | (j & st' & hits & -> & Hnth & Hd & Hne & Hnew)].
      * left. split; reflexivity.
      * right. exists (S j), st', hits. cbn [nth_error firstn map].
        rewrite <- app_assoc in Hd. repeat split; assumption.
    + exists new, 1%nat. cbn [firstn map]. split; [reflexivity|].
      right. exists 0%nat, st, hits. cbn [nth_error firstn map]. rewrite app_nil_r.
      repeat split; assumption.
Qed.

Lemma search_web_trace query max_results w :
  exists rs k,
    search_web E query max_results w
    = (Returns rs,
       w ++ map (backend_call query max_results) (firstn k search_strategies)
         ++ map fetch_call rs)
    /\ ((rs = [] /\ k = length search_strategies)
        \/ exists j st hits,
             k = S j
             /\ nth_error search_strategies j = Some st
             /\ ddgs_text E
                  (w ++ map (backend_call query max_results) (firstn j search_strategies))
                  (search_params_of query max_results st) = Returns hits
             /\ hits <> [] /\ Forall2 (fetched_from E) hits rs).
Proof.
  destruct (for_each_strategy_trace query max_results search_strategies [] w)
    as (new & k & Hrun & Hcase).
  exists new, k. split; [|exact Hcase].
  unfold search_web, with_local, try_except, bind at 1.
  rewrite Hrun. reflexivity.
Qed.

Lemma fetched_Forall (P : search_result -> Prop) hits rs :
  (forall h r, fetched_from E h r -> P r) ->
  Forall2 (fetched_from E) hits rs -> Forall P rs.
Proof.
  intros HP Hall. induction Hall as [|h r hits rs Hr _ IH]; constructor; eauto.
Qed.

End SearchTrace.






(** X7.  In every entry [search_web] returns, [full_content] is empty only
    when the snippet is empty too: an empty page text is replaced by the
    snippet. *)
Theorem search_web_full_content (E : env) (query : pyval) (max_results : Z) (w : world) :
  exists rs w',
    search_web E query max_results w = (Returns rs, w')
    /\ Forall (fun r => full_content r = [] -> snippet r = []) rs.
Proof.
  destruct (search_web_trace E query max_results w) as (rs & k & Hrun & Hcase).
  eexists rs, _. split; [exact Hrun|].
  destruct Hcase as [(-> & _) | (j & st & hits & _ & _ & _ & _ & Hall)]; [constructor|].
  eapply fetched_Forall; [|exact Hall].
  intros h r (_ & wf & page & _ & Hfc) Hempty. rewrite Hfc in Hempty.
  destruct page; cbn [nonempty] in Hempty; [exact Hempty | discriminate].
Qed.

(** X8.  When no page can be fetched, [search_web] still returns the
    entries of the hits, each with its snippet as [full_content]. *)
Theorem search_web_without_pages (E : env) (query : pyval) (max_results : Z) (w : world) :
  (forall w' target, exists e, page_text E w' target = Raises e) ->
  exists rs w',
    search_web E query max_results w = (Returns rs, w')
    /\ Forall (fun r => full_content r = snippet r) rs.
Proof.
  intros Hdown.
  destruct (search_web_trace E query max_results w) as (rs & k & Hrun & Hcase).
  eexists rs, _. split; [exact Hrun|].
  destruct Hcase as [(-> & _) | (j & st & hits & _ & _ & _ & _ & Hall)]; [constructor|].
  eapply fetched_Forall; [|exact Hall].
  intros h r (_ & wf & page & Hfetch & Hfc).
  revert Hfetch.
  cbv beta iota zeta delta [fetch_webpage_content try_except bind page_text_call ret].
  destruct (Hdown wf (url r)) as [e ->]. intros Heq. injection Heq as <-.
  exact Hfc.
Qed.

Lemma search_web_without_pages_witness :
  exists rs w',
    search_web (Script.scripted Script.hit_without_href) (PStr (u8 "q")) 8 []
    = (Returns rs, w')
    /\ rs <> []
    /\ Forall (fun r => full_content r = snippet r) rs.
Proof.
  destruct (search_web_without_pages (Script.scripted Script.hit_without_href)
              (PStr (u8 "q")) 8 [])
    as (rs & w' & Hrun & Hall).
  - intros w' target. eexists. reflexivity.
  - exists rs, w'. split; [exact Hrun|]. split; [|exact Hall].
    intros ->. vm_compute in Hrun. discriminate Hrun.
Defined.

(** ** What the summary reads *)

Lemma imap_map_ext {A B C : Type} (h : A -> B) (l : list A) :
  forall (f : nat -> B -> C) (g : nat -> A -> C),
    (forall i x, f i (h x) = g i x) -> imap f (map h l) = imap g l.
Proof.
  induction l as [|x l IH]; intros f g Hfg; [reflexivity|].
  cbn [map imap]. rewrite Hfg. f_equal. apply IH. intros i y. apply Hfg.
Qed.

Lemma firstn_5_read (rs : list search_result) :
  firstn 5 (map read_by_summary (firstn 5 rs)) = map read_by_summary (firstn 5 rs).
Proof. rewrite firstn_map, firstn_firstn. reflexivity. Qed.

Lemma results_text_read (rs : list search_result) :
  results_text (map read_by_summary (firstn 5 rs)) = results_text rs.
Proof.
  unfold results_text.
  change (py_slice_to (map read_by_summary (firstn 5 rs)) 5)
    with (firstn 5 (map read_by_summary (firstn 5 rs))).
  change (py_slice_to rs 5) with (firstn 5 rs).
  rewrite firstn_5_read. do 3 f_equal.
  apply imap_map_ext. intros i r. unfold source_block, read_by_summary.
  cbn [title url full_content].
  change (py_slice_to (firstn 1500 (full_content r)) 1500)
    with (firstn 1500 (firstn 1500 (full_content r))).
  change (py_slice_to (full_content r) 1500) with (firstn 1500 (full_content r)).
  rewrite firstn_firstn, Nat.min_id. reflexivity.
Qed.

Lemma fallback_summary_read (rs : list search_result) :
  fallback_summary (map read_by_summary (firstn 5 rs)) = fallback_summary rs.
Proof.
  unfold fallback_summary.
  change (py_slice_to (map read_by_summary (firstn 5 rs)) 5)
    with (firstn 5 (map read_by_summary (firstn 5 rs))).
  change (py_slice_to rs 5) with (firstn 5 rs).
  rewrite firstn_5_read, map_map. f_equal. apply map_ext. intros r.
  unfold read_by_summary. cbn [title full_content].
  change (py_slice_to (firstn 1500 (full_content r)) 300)
    with (firstn 300 (firstn 1500 (full_content r))).
  change (py_slice_to (full_content r) 300) with (firstn 300 (full_content r)).
  rewrite firstn_firstn. reflexivity.
Qed.

(** X9.  [summarize_search_results] reads only the first five results, and
    of each its title, its url and the first 1500 characters of
    [full_content]: the snippets, the later results and the rest of the
    content change neither the request sent to the model nor the summary
    returned, fallback included. *)
Theorem summarize_reads_five_sources (E : env) (query : pyval)
  (rs : list search_result) (w : world) :
  summarize_search_results E query rs w
  = summarize_search_results E query
      (map (fun r => SearchResult (title r) [] (firstn 1500 (full_content r)) (url r))
           (firstn 5 rs)) w.
Proof.
  change (map _ (firstn 5 rs)) with (map read_by_summary (firstn 5 rs)).
  unfold summarize_search_results, summary_request.
  rewrite results_text_read, fallback_summary_read.
  destruct rs; reflexivity.
Qed.

(** X10.  On a non-empty result list, when the model call returns,
    [summarize_search_results] returns the content of the first choice; a
    reply without choice, or whose first choice has no content, gives the
    fallback summary.  Either way one call is made. *)
Theorem summarize_uses_first_choice (E : env) (query : pyval)
  (rs : list search_result) (w : world) (resp : llm_response) :
  rs <> [] ->
  chat_completions_create E w (summary_request E query rs) = Returns resp ->
  summarize_search_results E query rs w
  = (Returns match choices resp with
             | Some s :: _ => s
             | _ => fallback_summary rs
             end,
     w ++ [ChatCompletion (summary_request E query rs)]).
Proof.
  intros Hne Hcall. destruct rs as [|r rs]; [contradiction|].
  unfold summarize_search_results. cbn [nonempty negb].
  cbv beta iota zeta delta [try_except bind client_create eval ret first_choice_content].
  rewrite Hcall. destruct (choices resp) as [|[s|] cs]; reflexivity.
Qed.

Lemma summarize_uses_first_choice_witness :
  [SearchResult (u8 "T") (u8 "B") (u8 "C") (u8 "U")] <> []
  /\ summarize_search_results (Script.scripted Cases.null_summary) (PStr (u8 "q"))
       [SearchResult (u8 "T") (u8 "B") (u8 "C") (u8 "U")] []
     = (Returns (fallback_summary [SearchResult (u8 "T") (u8 "B") (u8 "C") (u8 "U")]),
        [] ++ [ChatCompletion
                 (summary_request (Script.scripted Cases.null_summary) (PStr (u8 "q"))
                    [SearchResult (u8 "T") (u8 "B") (u8 "C") (u8 "U")])]).
Proof.
  split; [discriminate|].
  apply (summarize_uses_first_choice (Script.scripted Cases.null_summary) (PStr (u8 "q"))
           [SearchResult (u8 "T") (u8 "B") (u8 "C") (u8 "U")] []
           (LlmResponse [None] None)).
  - discriminate.
  - reflexivity.
Defined.


(** ** The turn, by the decision taken *)

Section TurnFacts.

Variable E : env.




(** A served query leaves the cache as it was or adds one entry under a key
    that had none. *)
Lemma served_cache_shape q m o m' :
  served E q m o m' ->
  search_cache m' = search_cache m
  \/ exists k entry,
       search_cache m !! k = None /\ search_cache m' = <[k := entry]> (search_cache m).
Proof.
  intros H. destruct H; cbn [search_cache]; auto. right. eauto.
Qed.

Lemma staged_cache_shape um ch sp r m en o r' m' :
  staged E um ch sp r m en o r' m' ->
  search_cache m' = search_cache m
  \/ exists k entry,
       search_cache m !! k = None /\ search_cache m' = <[k := entry]> (search_cache m).
Proof.
  intros H. destruct H; cbn [search_cache]; auto;
    match goal with
    | Hs : served _ _ _ _ _ |- _ => exact (served_cache_shape _ _ _ _ Hs)
    end.
Qed.

(** The cases of a turn whose decision is known. *)
Lemma staged_decision um ch sp r m o r' m' name d need :
  staged E um ch sp r m true o r' m' ->
  py_getitem (PDict ch) (u8 "name") = Returns name ->
  fst (should_search E um name (calls m)) = Returns d ->
  py_getitem d (u8 "need_search") = Returns need ->
  (py_truthy need = false /\ o = Returns sp /\ r' = r
   /\ m' = Manager (search_cache m)
             (calls m ++ [ChatCompletion (decision_request E um name)]))
  \/ (py_truthy need = true
      /\ ((exists e,
             py_getitem d (u8 "search_query") = Raises e /\ o = Raises e /\ r' = r
             /\ m' = Manager (search_cache m)
                       (calls m ++ [ChatCompletion (decision_request E um name)]))
          \/ exists q o',
               py_getitem d (u8 "search_query") = Returns q
               /\ served E q
                    (Manager (search_cache m)
                       (calls m ++ [ChatCompletion (decision_request E um name)])) o' m'
               /\ ((exists e, o' = Raises e /\ o = Raises e /\ r' = r)
                   \/ exists s l,
                        o' = Returns (s, l)
                        /\ o = Returns (sp ++ NL ++ NL ++ enhance_context E um name s)
                        /\ r' = set_search q s l r))).
Proof.
  intros Hst Hname Hd Hneed.
  destruct (should_search_total E um name (calls m)) as [d' Hd'].
  rewrite Hd' in Hd. cbn [fst] in Hd. injection Hd as ->.
  inversion Hst; subst;
    match goal with
    | H : py_getitem (PDict ch) (u8 "name") = Raises _ |- _ => congruence
    | H : py_getitem (PDict ch) (u8 "name") = Returns ?n,
      Hs : should_search E um ?n (calls m) = (Returns ?d0, ?w) |- _ =>
      assert (n = name) by congruence; subst n;
      rewrite Hd' in Hs; injection Hs as <- <-
    end;
    try congruence.
  - left. repeat split; congruence.
  - right. split; [congruence|]. left. eexists. repeat split; eauto.
  - right. split; [congruence|]. right. eexists _, _. split; [eassumption|].
    split; [eassumption|]. left. eexists. repeat split.
  - right. split; [congruence|]. right. eexists _, _. split; [eassumption|].
    split; [eassumption|]. right. eexists _, _. repeat split.
Qed.

End TurnFacts.








(** X16.  The cache only grows: whatever a turn does, and also when it
    raises, every entry present before is still there unchanged after, and
    at most one entry has been added. *)
Theorem cache_only_grows (E : env) (um : pystr) (ch : list (pystr * pyval))
  (sp : pystr) (hist : list message) (en : bool) (mo : pystr) (t : float) (mt : Z)
  (m : manager) :
  (forall k entry,
     search_cache m !! k = Some entry ->
     search_cache (snd (chat_with_mcp E um ch sp hist en mo t mt m)) !! k = Some entry)
  /\ (size (search_cache (snd (chat_with_mcp E um ch sp hist en mo t mt m)))
      <= S (size (search_cache m)))%nat.
Proof.
  destruct (search_stage_staged E um ch sp en initial_result m)
    as (o & r0 & m1 & Hstage & Hst).
  rewrite chat_with_mcp_cache, Hstage. cbn [snd].
  destruct (staged_cache_shape E _ _ _ _ _ _ _ _ _ Hst)
    as [-> | (k0 & entry0 & Hnone & ->)].
  - split; [auto | lia].
  - split.
    + intros k entry Hk. rewrite lookup_insert_ne; [exact Hk|]. congruence.
    + rewrite map_size_insert_None by exact Hnone. lia.
Qed.

(** X17.  After a turn that reports a search with a non-empty result list,
    the cache holds, under the reported query, exactly the summary and the
    results the turn reports. *)
Theorem searched_result_is_cached (E : env) (um : pystr) (ch : list (pystr * pyval))
  (sp : pystr) (hist : list message) (en : bool) (mo : pystr) (t : float) (mt : Z)
  (m : manager) (r : chat_result) (m' : manager) :
  chat_with_mcp E um ch sp hist en mo t mt m = (Returns r, m') ->
  search_performed r = true ->
  search_results r <> [] ->
  exists k,
    py_hash_key (search_query r) = Returns k
    /\ search_cache m' !! k = Some (CacheEntry (search_summary r) (search_results r)).
Proof.
  rewrite chat_with_mcp_run.
  destruct (search_stage_staged E um ch sp en initial_result m)
    as (o & r0 & m1 & Hstage & Hst).
  rewrite Hstage. destruct o as [sp'|e]; [|discriminate].
  cbv zeta. intros Heq. injection Heq as <- <-.
  destruct (generated_keeps_search_fields
              (chat_completions_create E (calls m1)
                 (final_request mo (build_messages sp' hist um) t mt)) r0)
    as (-> & -> & -> & ->).
  cbn [search_cache].
  inversion Hst; subst; cbn [search_performed initial_result]; try discriminate.
  cbn [set_search search_query search_summary search_results].
  intros _ Hne.
  match goal with Hs : served _ _ _ _ _ |- _ => inversion Hs; subst end;
    cbn [search_cache] in *.
  - eexists. split; [eassumption|].
    match goal with
    | Hl : _ !! _ = Some ?entry |- _ => rewrite Hl; destruct entry; reflexivity
    end.
  - eexists. split; [eassumption|]. apply lookup_insert_eq.
  - contradiction.
Qed.

Lemma searched_result_is_cached_witness :
  exists r m',
    Script.turn Script.search_finds (u8 "hi") new_manager = (Returns r, m')
    /\ search_performed r = true
    /\ search_results r <> []
    /\ exists k,
         py_hash_key (search_query r) = Returns k
         /\ search_cache m' !! k
            = Some (CacheEntry (search_summary r) (search_results r)).
Proof.
  destruct (Script.turn Script.search_finds (u8 "hi") new_manager) as [[r|e] m'] eqn:Hrun.
  - exists r, m'. split; [reflexivity|].
    pose proof Hrun as Hval. vm_compute in Hval. injection Hval as <- <-.
    split; [reflexivity|]. split; [discriminate|].
    apply (searched_result_is_cached (Script.scripted Script.search_finds) (u8 "hi")
             Script.hero (u8 "You are hero.") [] true (u8 "gpt-4o-ca") 0.8%float 2000
             new_manager _ _ Hrun).
    + reflexivity.
    + discriminate.
  - vm_compute in Hrun. discriminate Hrun.
Defined.





(** X20.  When the final reply has a choice but no [usage], the turn
    reports a failure although the model answered: the content is replaced
    by the apology followed by the message of the attribute error, and
    [tokens_used] and [cost] stay zero. *)
Theorem reply_without_usage (E : env) (um : pystr) (ch : list (pystr * pyval))
  (sp : pystr) (hist : list message) (en : bool) (mo : pystr) (t : float) (mt : Z)
  (m : manager) (sp' : pystr) (r0 : chat_result) (m1 : manager)
  (c : option pystr) (cs : list (option pystr)) :
  search_stage E um ch sp en (initial_result, m) = (Returns sp', (r0, m1)) ->
  chat_completions_create E (calls m1)
    (final_request mo (build_messages sp' hist um) t mt)
  = Returns (LlmResponse (c :: cs) None) ->
  exists r m',
    chat_with_mcp E um ch sp hist en mo t mt m = (Returns r, m')
    /\ response r
       = Some (u8 "抱歉，回复生成失败："
               ++ u8 "'NoneType' object has no attribute 'total_tokens'")
    /\ tokens_used r = 0
    /\ cost r = 0%float.
Proof.
  intros Hstage Hcall.
  destruct (search_stage_staged E um ch sp en initial_result m)
    as (o & r' & m' & Hrun & Hst).
  rewrite Hstage in Hrun. injection Hrun as <- <- <-.
  destruct (staged_keeps_generation_fields E _ _ _ _ _ _ _ _ _ Hst) as (_ & Htok & Hcost).
  rewrite chat_with_mcp_run, Hstage. cbv zeta. rewrite Hcall.
  eexists _, _. split; [reflexivity|].
  repeat split; assumption.
Qed.

Lemma reply_without_usage_witness :
  exists r m',
    chat_with_mcp (Script.scripted Cases.no_usage) (u8 "hi") Script.hero
      (u8 "You are hero.") [] false (u8 "gpt-4o-ca") 0.8%float 2000 new_manager
    = (Returns r, m')
    /\ response r
       = Some (u8 "抱歉，回复生成失败："
               ++ u8 "'NoneType' object has no attribute 'total_tokens'")
    /\ tokens_used r = 0
    /\ cost r = 0%float.
Proof.
  apply (reply_without_usage (Script.scripted Cases.no_usage) (u8 "hi") Script.hero
           (u8 "You are hero.") [] false (u8 "gpt-4o-ca") 0.8%float 2000 new_manager
           (u8 "You are hero.") initial_result new_manager (Some (u8 "R")) []).
  - reflexivity.
  - reflexivity.
Defined.

(** X21.  When the final reply has a choice and a usage whose cost can be
    computed, the turn returns the content of the first choice as
    [response], the reply's [total_tokens] as [tokens_used], and as [cost]
    the prompt tokens times 0.000005 plus the completion tokens times
    0.000015, in floating point; the search fields are those the earlier
    stages set. *)
Theorem successful_generation (E : env) (um : pystr) (ch : list (pystr * pyval))
  (sp : pystr) (hist : list message) (en : bool) (mo : pystr) (t : float) (mt : Z)
  (m : manager) (sp' : pystr) (r0 : chat_result) (m1 : manager)
  (c : option pystr) (cs : list (option pystr)) (u : completion_usage) (p q : float) :
  search_stage E um ch sp en (initial_result, m) = (Returns sp', (r0, m1)) ->
  chat_completions_create E (calls m1)
    (final_request mo (build_messages sp' hist um) t mt)
  = Returns (LlmResponse (c :: cs) (Some u)) ->
  float_of_int (prompt_tokens u) = Returns p ->
  float_of_int (completion_tokens u) = Returns q ->
  chat_with_mcp E um ch sp hist en mo t mt m
  = (Returns
       {| response := c;
          tokens_used := total_tokens u;
          cost := (p * 0.000005 + q * 0.000015)%float;
          search_performed := search_performed r0;
          search_query := search_query r0;
          search_summary := search_summary r0;
          search_results := search_results r0 |},
     Manager (search_cache m1)
       (calls m1
        ++ [ChatCompletion (final_request mo (build_messages sp' hist um) t mt)])).
Proof.
  intros Hstage Hcall Hp Hq.
  rewrite chat_with_mcp_run, Hstage. cbv zeta. rewrite Hcall.
  unfold generated, first_choice_content, usage_of, cost_of. cbn [choices usage].
  rewrite Hp, Hq. reflexivity.
Qed.

Lemma successful_generation_witness :
  float_of_int 100 = Returns 100%float
  /\ float_of_int 50 = Returns 50%float
  /\ chat_with_mcp (Script.scripted Script.search_finds) (u8 "hi") Script.hero
       (u8 "You are hero.") [] false (u8 "gpt-4o-ca") 0.8%float 2000 new_manager
     = (Returns
          {| response := Some (u8 "R");
             tokens_used := total_tokens (Usage 100 50 150);
             cost := (100 * 0.000005 + 50 * 0.000015)%float;
             search_performed := search_performed initial_result;
             search_query := search_query initial_result;
             search_summary := search_summary initial_result;
             search_results := search_results initial_result |},
        Manager (search_cache new_manager)
          (calls new_manager
           ++ [ChatCompletion
                 (final_request (u8 "gpt-4o-ca")
                    (build_messages (u8 "You are hero.") [] (u8 "hi"))
                    0.8%float 2000)])).
Proof.
  split; [reflexivity|]. split; [reflexivity|].
  apply (successful_generation (Script.scripted Script.search_finds) (u8 "hi") Script.hero
           (u8 "You are hero.") [] false (u8 "gpt-4o-ca") 0.8%float 2000 new_manager
           (u8 "You are hero.") initial_result new_manager (Some (u8 "R")) []
           (Usage 100 50 150) 100%float 50%float).
  - reflexivity.
  - reflexivity.
  - reflexivity.
  - reflexivity.
Defined.

(** X22.  With search enabled, a returning turn reports a search exactly
    when the decision's [need_search] is truthy in Python's sense: any
    non-empty string, the string [false] included, and any non-zero number
    trigger the search like [True]. *)
Theorem search_follows_truthiness (E : env) (um : pystr) (ch : list (pystr * pyval))
  (sp : pystr) (hist : list message) (mo : pystr) (t : float) (mt : Z) (m : manager)
  (name d need : pyval) (r : chat_result) (m' : manager) :
  chat_with_mcp E um ch sp hist true mo t mt m = (Returns r, m') ->
  py_getitem (PDict ch) (u8 "name") = Returns name ->
  fst (should_search E um name (calls m)) = Returns d ->
  py_getitem d (u8 "need_search") = Returns need ->
  search_performed r = py_truthy need.
Proof.
  rewrite chat_with_mcp_run.
  destruct (search_stage_staged E um ch sp true initial_result m)
    as (o & r0 & m1 & Hstage & Hst).
  rewrite Hstage. intros Hrun Hname Hd Hneed.
  destruct o as [sp'|e]; [|discriminate].
  cbv zeta in Hrun. injection Hrun as <- <-.
  destruct (generated_keeps_search_fields
              (chat_completions_create E (calls m1)
                 (final_request mo (build_messages sp' hist um) t mt)) r0)
    as (-> & _).
  destruct (staged_decision E _ _ _ _ _ _ _ _ _ _ _ Hst Hname Hd Hneed)
    as [(-> & _ & -> & _) | (-> & [(e & _ & Ho & _) | (q & o' & _ & _ & Hcase)])].
  - reflexivity.
  - discriminate.
  - destruct Hcase as [(e & _ & Ho & _) | (s & l & _ & _ & ->)]; [discriminate | reflexivity].
Qed.

Lemma search_follows_truthiness_witness :
  py_getitem Cases.FALSE_STRING (u8 "need_search") = Returns (PStr (u8 "false"))
  /\ exists r m',
       Script.turn Cases.says_false (u8 "hi") new_manager = (Returns r, m')
       /\ search_performed r = py_truthy (PStr (u8 "false"))
       /\ search_performed r = true.
Proof.
  split; [reflexivity|].
  destruct (Script.turn Cases.says_false (u8 "hi") new_manager) as [[r|e] m'] eqn:Hrun.
  - exists r, m'. split; [reflexivity|].
    pose proof (search_follows_truthiness (Script.scripted Cases.says_false) (u8 "hi")
                  Script.hero (u8 "You are hero.") [] (u8 "gpt-4o-ca") 0.8%float 2000
                  new_manager (PStr (u8 "hero")) Cases.FALSE_STRING (PStr (u8 "false"))
                  r m' Hrun eq_refl eq_refl eq_refl) as Hsearch.
    split; [exact Hsearch|]. rewrite Hsearch. reflexivity.
  - vm_compute in Hrun. discriminate Hrun.
Defined.

(** ** The manager over its life *)

Lemma chat_keeps_cache_ok (E : env) (a : turn_args) (m : manager) :
  cache_ok (search_cache m) -> cache_ok (search_cache (snd (chat_turn E a m))).
Proof.
  intros Hok. unfold chat_turn.
  destruct (search_stage_staged E (arg_user_message a) (arg_character a)
              (arg_system_prompt a) (arg_enable_search a) initial_result m)
    as (o & r0 & m1 & Hstage & Hst).
  rewrite chat_with_mcp_cache, Hstage. cbn [snd].
  intros k entry Hk.
  destruct (staged_keeps_cache_or_adds E _ _ _ _ _ _ _ _ _ Hst k)
    as [Hsame | (_ & entry' & Hnew & Hne)].
  - rewrite Hsame in Hk. exact (Hok k entry Hk).
  - rewrite Hnew in Hk. injection Hk as <-. exact Hne.
Qed.

Lemma after_turns_keeps_cache_ok (E : env) (turns : list turn_args) :
  forall m, cache_ok (search_cache m) -> cache_ok (search_cache (after_turns E turns m)).
Proof.
  induction turns as [|a rest IH]; intros m Hok; cbn [after_turns]; [exact Hok|].
  apply IH, chat_keeps_cache_ok, Hok.
Qed.

(** X23.  On a manager created by [__init__] and used for any sequence of
    turns, with any arguments and any behaviour of the collaborators, turns
    that raised included, every cache entry has a non-empty result list. *)
Theorem cache_ok_over_turns (E : env) (turns : list turn_args) :
  map_Forall (fun _ entry => results entry <> [])
    (search_cache (after_turns E turns new_manager)).
Proof. apply after_turns_keeps_cache_ok, cache_ok_empty. Qed.

(** X24.  On such a manager, a turn that reports a search without results
    found nothing in this very turn: the query was not in the cache, the
    cache is left as it was, and the summary is the no-information marker. *)
Theorem empty_results_mean_marker (E : env) (turns : list turn_args) (a : turn_args)
  (r : chat_result) (m' : manager) :
  chat_turn E a (after_turns E turns new_manager) = (Returns r, m') ->
  search_performed r = true ->
  search_results r = [] ->
  search_summary r = u8 "未找到相关信息"
  /\ search_cache m' = search_cache (after_turns E turns new_manager)
  /\ exists k,
       py_hash_key (search_query r) = Returns k
       /\ search_cache (after_turns E turns new_manager) !! k = None.
Proof.
  pose proof (after_turns_keeps_cache_ok E turns new_manager cache_ok_empty) as Hok.
  revert Hok. generalize (after_turns E turns new_manager). intros m Hok.
  unfold chat_turn. rewrite chat_with_mcp_run.
  destruct (search_stage_staged E (arg_user_message a) (arg_character a)
              (arg_system_prompt a) (arg_enable_search a) initial_result m)
    as (o & r0 & m1 & Hstage & Hst).
  rewrite Hstage. destruct o as [sp'|e]; [|discriminate].
  cbv zeta. intros Heq. injection Heq as <- <-.
  match goal with
  | |- context [generated ?o r0] =>
    destruct (generated_keeps_search_fields o r0) as (-> & -> & -> & ->)
  end.
  cbn [search_cache].
  inversion Hst; subst; cbn [search_performed initial_result]; try discriminate.
  cbn [set_search search_query search_summary search_results].
  intros _ Hres. subst.
  match goal with Hs : served _ _ _ _ _ |- _ => inversion Hs; subst end;
    cbn [search_cache] in *.
  - exfalso.
    match goal with
    | Hl : search_cache m !! _ = Some ?entry, Hr : results ?entry = [] |- _ =>
      exact (Hok _ _ Hl Hr)
    end.
  - congruence.
  - split; [reflexivity|]. split; [reflexivity|]. eexists. split; eassumption.
Qed.

Lemma empty_results_mean_marker_witness :
  exists r m',
    chat_turn (Script.scripted Script.finds_later)
      (TurnArgs (u8 "hi") Script.hero (u8 "You are hero.") [] true (u8 "gpt-4o-ca")
         0.8%float 2000)
      (after_turns (Script.scripted Script.finds_later) [] new_manager)
    = (Returns r, m')
    /\ search_performed r = true
    /\ search_results r = []
    /\ search_summary r = u8 "未找到相关信息"
    /\ search_cache m'
       = search_cache (after_turns (Script.scripted Script.finds_later) [] new_manager)
    /\ exists k,
         py_hash_key (search_query r) = Returns k
         /\ search_cache (after_turns (Script.scripted Script.finds_later) [] new_manager)
            !! k = None.
Proof.
  destruct (chat_turn (Script.scripted Script.finds_later)
              (TurnArgs (u8 "hi") Script.hero (u8 "You are hero.") [] true
                 (u8 "gpt-4o-ca") 0.8%float 2000)
              (after_turns (Script.scripted Script.finds_later) [] new_manager))
    as [[r|e] m'] eqn:Hrun.
  - exists r, m'. split; [reflexivity|].
    pose proof Hrun as Hval. vm_compute in Hval. injection Hval as <- <-.
    split; [reflexivity|]. split; [reflexivity|].
    apply (empty_results_mean_marker (Script.scripted Script.finds_later) []
             (TurnArgs (u8 "hi") Script.hero (u8 "You are hero.") [] true
                (u8 "gpt-4o-ca") 0.8%float 2000) _ _ Hrun).
    + reflexivity.
    + reflexivity.
  - vm_compute in Hrun. discriminate Hrun.
Defined.
